(** * PowerPoint generator form (streamlit_integration.py)

    A shallow embedding of the Streamlit script: the account selector,
    the manual override, the generate button and the handler that calls
    GENERATE_ACCOUNT_POWERPOINT and renders its free-text result.

    Python [str] values are [String.string]: a text is the sequence of
    its UTF-8 bytes.  [strip] knows the white space of Unicode in its
    UTF-8 form; [lower] folds the ASCII letters, which is where the
    word that line 136 looks for lives.  The page is the list of
    widgets in the order the script emits them (the column layout is
    not kept, and the title, the subheaders and the dividers, which are
    fixed decoration, are not recorded), and the session is a pair of
    functions giving the outcome of each query.  The footer (lines
    211-219) is fixed text and is left out; the sidebar (lines 222-262)
    is modelled on its own, with its own list of items. *)

From Stdlib Require Import String Ascii List Bool Arith Lia.
Import ListNotations.
Open Scope string_scope.
Open Scope list_scope.

(** ** Python exceptions

    [Exc] stands for an instance of Python's [Exception] class, which
    an [except Exception] clause catches.  [BaseExc] stands for the
    other instances of [BaseException] (KeyboardInterrupt, SystemExit,
    the exceptions by which Streamlit stops or reruns a script), which
    only a bare [except:] catches.  [str_exc] is [str(e)]. *)

Inductive PyExc : Type :=
| Exc (cls : string) (msg : string)
| BaseExc (cls : string) (msg : string).

Definition str_exc (e : PyExc) : string :=
  match e with
  | Exc _ msg => msg
  | BaseExc _ msg => msg
  end.

(** [isinstance(e, Exception)]: what an [except Exception] clause
    catches. *)
Definition caught (e : PyExc) : bool :=
  match e with
  | Exc _ _ => true
  | BaseExc _ _ => false
  end.

Definition IndexError_list : PyExc := Exc "IndexError" "list index out of range".
Definition IndexError_tuple : PyExc := Exc "IndexError" "tuple index out of range".
Definition IndexError_iloc : PyExc :=
  Exc "IndexError" "single positional indexer is out-of-bounds".
Definition ValueError_empty_separator : PyExc := Exc "ValueError" "empty separator".
Definition NameError (name : string) : PyExc :=
  Exc "NameError" ("name '" ++ name ++ "' is not defined")%string.
Definition AttributeError_None (attr : string) : PyExc :=
  Exc "AttributeError" ("'NoneType' object has no attribute '" ++ attr ++ "'")%string.

(** Results of pure expressions that may raise. *)
Definition and_then {A B : Type} (r : PyExc + A) (k : A -> PyExc + B) : PyExc + B :=
  match r with
  | inl e => inl e
  | inr a => k a
  end.

(** ** String operations of the script *)

Module PyStr.

Definition nl : string := String "010"%char "".

(** A triple-quoted literal, given line by line. *)
Definition text (lines : list string) : string := String.concat nl lines.

(** [c.isspace()] for a character of one byte: TAB..CR, FS..US and the
    blank. *)
Definition isspace (c : ascii) : bool :=
  let n := nat_of_ascii c in
  ((9 <=? n)%nat && (n <=? 13)%nat) || ((28 <=? n)%nat && (n <=? 32)%nat).

(** The white space of two bytes: U+0085 and U+00A0. *)
Definition space2 (a b : ascii) : bool :=
  ((nat_of_ascii a =? 194) && ((nat_of_ascii b =? 133) || (nat_of_ascii b =? 160)))%nat.

(** The white space of three bytes: U+1680, U+2000..U+200A, U+2028,
    U+2029, U+202F, U+205F and U+3000. *)
Definition space3 (a b c : ascii) : bool :=
  let x := nat_of_ascii a in
  let y := nat_of_ascii b in
  let z := nat_of_ascii c in
  (((x =? 225) && (y =? 154) && (z =? 128))
   || ((x =? 226) && (y =? 128)
       && (((128 <=? z) && (z <=? 138)) || (z =? 168) || (z =? 169) || (z =? 175)))
   || ((x =? 226) && (y =? 129) && (z =? 159))
   || ((x =? 227) && (y =? 128) && (z =? 128)))%nat.

Definition lower_char (c : ascii) : ascii :=
  let n := nat_of_ascii c in
  if (65 <=? n)%nat && (n <=? 90)%nat then ascii_of_nat (n + 32) else c.

(** [s.lower()] *)
Fixpoint lower (s : string) : string :=
  match s with
  | EmptyString => EmptyString
  | String c s' => String (lower_char c) (lower s')
  end.

(** [s.lstrip()]: the white-space characters at the front are passed
    over, whether of one, two or three bytes. *)
Fixpoint lstrip (s : string) : string :=
  match s with
  | EmptyString => EmptyString
  | String a s1 =>
      if isspace a then lstrip s1
      else
        match s1 with
        | EmptyString => s
        | String b s2 =>
            if space2 a b then lstrip s2
            else
              match s2 with
              | EmptyString => s
              | String c s3 => if space3 a b c then lstrip s3 else s
              end
        end
  end.

(** [s.rstrip()]: the text is cut where what remains is white space
    only. *)
Fixpoint rstrip (s : string) : string :=
  match s with
  | EmptyString => EmptyString
  | String c s' =>
      match lstrip s with
      | EmptyString => EmptyString
      | _ => String c (rstrip s')
      end
  end.

(** [s.strip()] *)
Definition strip (s : string) : string := lstrip (rstrip s).

(** [s[n:]] and [s[:n]] *)
Fixpoint drop (n : nat) (s : string) : string :=
  match n, s with
  | S k, String _ s' => drop k s'
  | _, _ => s
  end.

Fixpoint take (n : nat) (s : string) : string :=
  match n, s with
  | S k, String c s' => String c (take k s')
  | _, _ => EmptyString
  end.

(** [sub in s] *)
Fixpoint contains (sub s : string) : bool :=
  prefix sub s ||
  match s with
  | EmptyString => false
  | String _ s' => contains sub s'
  end.

(** [s.find(sub)], with [None] for Python's -1. *)
Fixpoint find (sub s : string) : option nat :=
  if prefix sub s then Some 0
  else match s with
       | EmptyString => None
       | String _ s' => option_map S (find sub s')
       end.

(** [s.endswith(suf)] *)
Fixpoint endswith (suf s : string) : bool :=
  String.eqb s suf ||
  match s with
  | EmptyString => false
  | String _ s' => endswith suf s'
  end.

Definition cons_head (c : ascii) (parts : list string) : list string :=
  match parts with
  | [] => [String c EmptyString]
  | h :: t => String c h :: t
  end.

(** The left-to-right scan of [s.split(sep)]: [skip] counts the
    characters of a separator just matched that are still to be
    passed over. *)
Fixpoint split_scan (sep s : string) (skip : nat) : list string :=
  match s with
  | EmptyString => [EmptyString]
  | String c s' =>
      match skip with
      | S k => split_scan sep s' k
      | O =>
          if prefix sep s
          then EmptyString :: split_scan sep s' (String.length sep - 1)
          else cons_head c (split_scan sep s' 0)
      end
  end.

(** [s.split(sep)]; the empty separator raises ValueError. *)
Definition split (sep s : string) : PyExc + list string :=
  match sep with
  | EmptyString => inl ValueError_empty_separator
  | _ => inr (split_scan sep s 0)
  end.

(** [parts[i]] on a list *)
Definition item {A : Type} (err : PyExc) (l : list A) (i : nat) : PyExc + A :=
  match nth_error l i with
  | Some x => inr x
  | None => inl err
  end.

End PyStr.

Import PyStr.

(** ** The page and the session *)

(** A row of the ACCOUNTS table.  REVENUE and EMPLOYEES are numbers
    that only lines 96 and 97 read, to format them; the record leaves
    them out, and what the two formats give for a row is a parameter
    of the script (see [revenue_text] and [employees_text]). *)
Record Account : Type := {
  ACCOUNT_ID : string;
  ACCOUNT_NAME : string;
  ACCOUNT_TYPE : string;
  INDUSTRY : string
}.

(** A cell of a collected row: [None] is SQL NULL. *)
Definition Cell : Type := option string.
Definition Row : Type := list Cell.

#[warnings="-register-all"]
Inductive Widget : Type :=
| Dataframe (rows : list Account)
| Selectbox (label : string) (options : list string)
| TextInput (label value : string)
| Button (label : string) (disabled : bool)
| Spinner (body : string)
| Success (body : string)
| Info (body : string)
| Warning (body : string)
| Error (body : string)
| Markdown (body : string)
| Code (body : string) (language : option string)
| TextArea (label value : string)
| Expander (label : string) (children : list Widget)
| Metric (label value : string).

(** What a run of the script has done so far: the widgets it has
    emitted and the statements it has sent through [session.sql]. *)
Record Page : Type := {
  shown : list Widget;
  queries : list string
}.

Definition blank : Page := {| shown := []; queries := [] |}.

(** The page [p] with the widgets [ws] added at its end. *)
Definition emit (ws : list Widget) (p : Page) : Page :=
  {| shown := shown p ++ ws; queries := queries p |}.

(** The page [p] with the statements [qs] added to its log. *)
Definition sent (qs : list string) (p : Page) : Page :=
  {| shown := shown p; queries := queries p ++ qs |}.

(** A script fragment: it extends the page and either returns a value
    or raises; what was emitted before a raise stays on the page. *)
Definition M (A : Type) : Type := Page -> Page * (PyExc + A).

Definition ret {A : Type} (a : A) : M A := fun p => (p, inr a).

Definition bind {A B : Type} (c : M A) (k : A -> M B) : M B :=
  fun p =>
    match c p with
    | (p', inr a) => k a p'
    | (p', inl e) => (p', inl e)
    end.

Definition raise {A : Type} (e : PyExc) : M A := fun p => (p, inl e).

Definition lift {A : Type} (r : PyExc + A) : M A := fun p => (p, r).

(** [try: body / except Exception as e: handler e]: what is not an
    instance of [Exception] goes through. *)
Definition try_except {A : Type} (body : M A) (handler : PyExc -> M A) : M A :=
  fun p =>
    match body p with
    | (p', inl (Exc cls msg)) => handler (Exc cls msg) p'
    | (p', inl (BaseExc cls msg)) => (p', inl (BaseExc cls msg))
    | (p', inr a) => (p', inr a)
    end.

(** [try: body / except: handler], the bare clause, which catches
    everything. *)
Definition try_bare {A : Type} (body : M A) (handler : M A) : M A :=
  fun p =>
    match body p with
    | (p', inl _) => handler p'
    | (p', inr a) => (p', inr a)
    end.

Definition show (w : Widget) : M unit := fun p => (emit [w] p, inr tt).

(** [with st.expander(label): body] *)
Definition st_expander {A : Type} (label : string) (body : M A) : M A :=
  fun p =>
    let '(p', r) := body {| shown := []; queries := queries p |} in
    ({| shown := shown p ++ [Expander label (shown p')]; queries := queries p' |}, r).

Declare Scope py_scope.
Delimit Scope py_scope with py.
Notation "x <- c ;; k" := (bind c (fun x => k))
  (at level 61, c at next level, right associativity) : py_scope.
Notation "c ;; k" := (bind c (fun _ => k))
  (at level 61, right associativity) : py_scope.
Open Scope py_scope.

(** Python truthiness of an optional string: [None] and the empty
    string are false. *)
Definition truthy (v : option string) : bool :=
  match v with
  | Some (String _ _) => true
  | _ => false
  end.

Definition nonempty (s : string) : bool :=
  match s with
  | EmptyString => false
  | String _ _ => true
  end.

(** [str(v)] inside an f-string *)
Definition str_cell (v : Cell) : string :=
  match v with
  | Some s => s
  | None => "None"
  end.

(** ** Literals of the script *)

Definition accounts_query : string :=
  text [ "";
         "            SELECT ";
         "                ACCOUNT_ID,";
         "                ACCOUNT_NAME,";
         "                ACCOUNT_TYPE,";
         "                REVENUE,";
         "                EMPLOYEES,";
         "                INDUSTRY";
         "            FROM POWERPOINT_DB.REPORTING.ACCOUNTS";
         "            ORDER BY ACCOUNT_NAME";
         "        " ].

(** The statement of lines 128-130 for a given identifier. *)
Definition call_statement (final_account_id : string) : string :=
  text [ "";
         "                CALL POWERPOINT_DB.REPORTING.GENERATE_ACCOUNT_POWERPOINT('"
           ++ final_account_id ++ "')";
         "            " ]%string.

Definition role_query : string := "SELECT CURRENT_ROLE()".
Definition warehouse_query : string := "SELECT CURRENT_WAREHOUSE()".

Definition success_banner : string := "✅ PowerPoint generated successfully!".
Definition failure_banner : string := "❌ Failed to generate PowerPoint".

Definition file_name_info (file_name : string) : string :=
  ("📄 File Name: `" ++ file_name ++ "`")%string.

Definition download_link (url : string) : string :=
  text [ "";
         "                    **Option 1: Direct Browser Download**";
         "                    ";
         "                    Click the link below to download the PowerPoint file:";
         "                    ";
         "                    [🔗 Download PowerPoint](" ++ url ++ ")";
         "                    " ]%string.

Definition snowsql_command (file_name : string) : string :=
  ("GET @POWERPOINT_DB.REPORTING.PPT_STAGE/" ++ file_name ++ " file://./;")%string.

Definition generation_error (e : PyExc) : string :=
  ("❌ Error generating PowerPoint: " ++ str_exc e)%string.

Definition common_issues : string :=
  text [ "";
         "                **Common Issues:**";
         "                ";
         "                1. **Permission Denied**: Ensure your role has the following permissions:";
         "                   - USAGE on POWERPOINT_DB database";
         "                   - USAGE on POWERPOINT_DB.REPORTING schema";
         "                   - READ, WRITE on PPT_STAGE stage";
         "                   - USAGE on REPORTING_WH warehouse";
         "                   - SELECT on ACCOUNTS table";
         "                   - USAGE on GENERATE_ACCOUNT_POWERPOINT procedure";
         "                ";
         "                2. **Account Not Found**: Verify the account ID exists in the ACCOUNTS table";
         "                ";
         "                3. **Warehouse Not Available**: Ensure REPORTING_WH is running or set to auto-resume";
         "                ";
         "                **Check Current Settings:**";
         "                " ].

Definition current_settings (current_role current_warehouse : Cell) : string :=
  text [ "";
         "Current Role: " ++ str_cell current_role;
         "Current Warehouse: " ++ str_cell current_warehouse;
         "                    " ]%string.

Definition url_marker : string := "Download URL (valid for 24 hours):".

(** ** Parsing the result message (lines 141 and 146) *)

(** [result_message.split("File:")[1].split("|")[0].strip()] *)
Definition extract_file_name (result_message : string) : PyExc + string :=
  and_then (split "File:" result_message) (fun parts =>
  and_then (item IndexError_list parts 1) (fun after =>
  and_then (split "|" after) (fun fields =>
  and_then (item IndexError_list fields 0) (fun field =>
  inr (strip field))))).

(** [result_message.split("Download URL (valid for 24 hours):")[1].strip()] *)
Definition extract_url (result_message : string) : PyExc + string :=
  and_then (split url_marker result_message) (fun parts =>
  and_then (item IndexError_list parts 1) (fun after =>
  inr (strip after))).

(** The test of line 136. *)
Definition is_success (result_message : string) : bool :=
  contains "successfully" (lower result_message).

(** Reading a local variable that an earlier branch may have left
    unbound. *)
Definition local (name : string) (v : option string) : M string :=
  match v with
  | Some x => ret x
  | None => raise (NameError name)
  end.

(** Lines 140-142: the file name, when the marker is there. *)
Definition show_file_name (result_message : string) : M (option string) :=
  if contains "File:" result_message then
    file_name <- lift (extract_file_name result_message) ;;
    show (Info (file_name_info file_name)) ;;
    ret (Some file_name)
  else ret None.

(** Lines 145-168: the download section; [file_name] is the local
    variable of that name, unbound when line 141 did not run. *)
Definition show_download (result_message : string) (file_name : option string)
  : M unit :=
  url <- lift (extract_url result_message) ;;
  show (Markdown "### 📥 Download Options") ;;
  show (Markdown (download_link url)) ;;
  show (Code url None) ;;
  show (Markdown "**Option 2: Download via SnowSQL**") ;;
  file_name <- local "file_name" file_name ;;
  show (Code (snowsql_command file_name) (Some "sql")) ;;
  show (Info "💡 Tip: The download URL is valid for 24 hours.").

(** Lines 136-175: the rendering of a result message. *)
Definition render_result (result_message : string) : M unit :=
  if is_success result_message then
    show (Success success_banner) ;;
    file_name <- show_file_name result_message ;;
    if contains "Download URL" result_message then
      show_download result_message file_name
    else
      show (TextArea "Result:" result_message)
  else
    show (Error failure_banner) ;;
    show (TextArea "Error details:" result_message).

(** The label of line 71 and the identifier of line 80. *)
Definition account_option (row : Account) : string :=
  (ACCOUNT_ID row ++ " - " ++ ACCOUNT_NAME row)%string.

Definition account_options (accounts_df : list Account) : list string :=
  map account_option accounts_df.

(** [selected_account.split(' - ')[0]] *)
Definition account_id_of (selected_account : string) : PyExc + string :=
  and_then (split " - " selected_account) (fun parts =>
  item IndexError_list parts 0).

(** Line 109. *)
Definition final_account_id (manual_account_id : string) (account_id : option string)
  : option string :=
  if nonempty manual_account_id then Some manual_account_id else account_id.

(** The widgets that take input: the selectbox returns the chosen
    option ([None] when there is none), the text field returns what was
    typed or else its initial value, a disabled button is never
    clicked. *)
Definition st_selectbox (label : string) (options : list string) (choice : nat)
  : M (option string) :=
  show (Selectbox label options) ;; ret (nth_error options choice).

Definition st_text_input (label value : string) (typed : option string) : M string :=
  let current := match typed with Some s => s | None => value end in
  show (TextInput label current) ;; ret current.

Definition st_button (label : string) (disabled pressed : bool) : M bool :=
  show (Button label disabled) ;; ret (pressed && negb disabled).

(** Line 92: [accounts_df[accounts_df['ACCOUNT_ID'] == account_id].iloc[0]],
    the first row with the identifier; [iloc] raises on an empty
    selection. *)
Definition account_row (accounts_df : list Account) (account_id : string)
  : PyExc + Account :=
  match filter (fun row => String.eqb (ACCOUNT_ID row) account_id) accounts_df with
  | row :: _ => inr row
  | [] => inl IndexError_iloc
  end.

Section App.

(** The session: [to_pandas q] is [session.sql(q).to_pandas()] and
    [collect q] is [session.sql(q).collect()]. *)
Variable to_pandas : string -> PyExc + list Account.
Variable collect : string -> PyExc + list Row.

(** The two number formats of the detail panel, for a row of the
    table: [revenue_text row] is what line 96 makes of its REVENUE,
    [f"${...:,.2f}"], and [employees_text row] what line 97 makes of
    its EMPLOYEES, [f"{...:,}"]; either may raise. *)
Variable revenue_text : Account -> PyExc + string.
Variable employees_text : Account -> PyExc + string.

Definition sql_to_pandas (q : string) : M (list Account) :=
  fun p => (sent [q] p, to_pandas q).

Definition sql_collect (q : string) : M (list Row) :=
  fun p => (sent [q] p, collect q).

(** [session.sql(q).collect()[0][0]] *)
Definition first_cell (q : string) : M Cell :=
  result <- sql_collect q ;;
  row <- lift (item IndexError_list result 0) ;;
  lift (item IndexError_tuple row 0).

(** Lines 50-85: the selector; returns [account_id] and the frame
    when it has been loaded. *)
Definition select_account (choice : nat) : M (option string * list Account) :=
  try_except
    (accounts_df <- sql_to_pandas accounts_query ;;
     show (Dataframe accounts_df) ;;
     selected_account <-
       st_selectbox "Choose an account:" (account_options accounts_df) choice ;;
     match selected_account with
     | None => raise (AttributeError_None "split")
     | Some selected =>
         account_id <- lift (account_id_of selected) ;;
         ret (Some account_id, accounts_df)
     end)
    (fun e =>
       show (Error ("Error loading accounts: " ++ str_exc e)%string) ;;
       show (Info "Using manual account ID input instead.") ;;
       ret (None, [])).

(** Lines 87-98: no [try] around them.  Each metric is on the page
    as soon as its line has run. *)
Definition details_panel (account_id : option string) (accounts_df : list Account)
  : M unit :=
  if truthy account_id then
    account_details <- lift (account_row accounts_df (str_cell account_id)) ;;
    show (Metric "Account Name" (ACCOUNT_NAME account_details)) ;;
    show (Metric "Type" (ACCOUNT_TYPE account_details)) ;;
    revenue <- lift (revenue_text account_details) ;;
    show (Metric "Revenue" revenue) ;;
    employees <- lift (employees_text account_details) ;;
    show (Metric "Employees" employees) ;;
    show (Metric "Industry" (INDUSTRY account_details))
  else ret tt.

(** Lines 200-209: the inner [try] with its bare [except]. *)
Definition session_settings : M unit :=
  try_bare
    (current_role <- first_cell role_query ;;
     current_warehouse <- first_cell warehouse_query ;;
     show (Code (current_settings current_role current_warehouse) (Some "python")))
    (show (Warning "Could not retrieve current session information")).

(** Lines 177-209: the [except Exception as e] clause. *)
Definition on_error (e : PyExc) : M unit :=
  show (Error (generation_error e)) ;;
  st_expander "🔧 Troubleshooting"
    (show (Markdown common_issues) ;; session_settings).

(** Lines 128-175: the body of the [try]. *)
Definition call_and_render (final_account_id : string) : M unit :=
  result <- sql_collect (call_statement final_account_id) ;;
  row <- lift (item IndexError_list result 0) ;;
  result_message <- lift (item IndexError_tuple row 0) ;;
  match result_message with
  | None => raise (AttributeError_None "lower")
  | Some message => render_result message
  end.

(** Lines 126-209. *)
Definition generate (final_account_id : string) : M unit :=
  try_except (call_and_render final_account_id) on_error.

(** Lines 124-209. *)
Definition on_generate (generate_button : bool) (final_account_id : option string)
  : M unit :=
  if generate_button && truthy final_account_id then
    let id := str_cell final_account_id in
    show (Spinner ("Generating PowerPoint for account " ++ id ++ "...")%string) ;;
    generate id
  else ret tt.

(** Lines 46-209: one run of the script, given what the user chose
    in the selectbox, typed in the text field and did to the button. *)
Definition app (choice : nat) (typed : option string) (pressed : bool) : M unit :=
  selection <- select_account choice ;;
  let '(account_id, accounts_df) := selection in
  details_panel account_id accounts_df ;;
  manual_account_id <-
    st_text_input "Or enter Account ID manually:"
      (if truthy account_id then str_cell account_id else "") typed ;;
  let final := final_account_id manual_account_id account_id in
  generate_button <- st_button "🎨 Generate PowerPoint" (negb (truthy final)) pressed ;;
  on_generate generate_button final.

End App.

(** ** Vocabulary of the properties *)

(** Where the first occurrence of [sep] in [s] starts, or the length of
    [s] when there is none. *)
Definition index_or_end (sep s : string) : nat :=
  match find sep s with
  | Some i => i
  | None => String.length s
  end.

(** Every character of [s] satisfies [f]. *)
Fixpoint all (f : ascii -> bool) (s : string) : bool :=
  match s with
  | EmptyString => true
  | String c s' => f c && all f s'
  end.

Definition differs (c : ascii) : ascii -> bool := fun x => negb (Ascii.eqb x c).





(** The widgets of the download section up to the SnowSQL heading. *)
Definition download_head (url : string) : list Widget :=
  [ Markdown "### 📥 Download Options";
    Markdown (download_link url);
    Code url None;
    Markdown "**Option 2: Download via SnowSQL**" ].

Definition download_tip : Widget :=
  Info "💡 Tip: The download URL is valid for 24 hours.".

Definition is_download_link (w : Widget) : bool :=
  match w with
  | Markdown body => contains "Download PowerPoint](" body
  | _ => false
  end.

Definition is_text_area (w : Widget) : bool :=
  match w with
  | TextArea _ _ => true
  | _ => false
  end.

Definition acme : Account :=
  {| ACCOUNT_ID := "ACC001"; ACCOUNT_NAME := "Acme Corporation";
     ACCOUNT_TYPE := "Customer"; INDUSTRY := "Technology" |}.

(** A row whose identifier holds the separator of the labels. *)
Definition dashed : Account :=
  {| ACCOUNT_ID := "A - B"; ACCOUNT_NAME := "Acme Corporation";
     ACCOUNT_TYPE := "Customer"; INDUSTRY := "Technology" |}.

(** A loaded table with the single row [acme], and a table that cannot
    be read. *)
Definition one_account : string -> PyExc + list Account := fun _ => inr [acme].

Definition no_table : string -> PyExc + list Account :=
  fun _ => inl (Exc "SnowparkSQLException" "Object does not exist").

(** Formats that succeed on every row, and a revenue that is NULL. *)
Definition revenue_ok : Account -> PyExc + string := fun _ => inr "$1,250,000.00".

Definition employees_ok : Account -> PyExc + string := fun _ => inr "5,000".

Definition revenue_null : Account -> PyExc + string :=
  fun _ => inl (Exc "TypeError" "unsupported format string passed to NoneType.__format__").

(** What an [except Exception] clause that itself ends normally
    leaves of the outcome of its [try]. *)
Definition uncaught {A : Type} (r : PyExc + A) : PyExc + unit :=
  match r with
  | inl (BaseExc cls msg) => inl (BaseExc cls msg)
  | _ => inr tt
  end.

(** A session interrupted at every statement. *)
Definition interrupted : string -> PyExc + list Row :=
  fun _ => inl (BaseExc "KeyboardInterrupt" "").

(** The text of the call statement before and after the identifier. *)
Definition call_head : string :=
  (nl ++ "                CALL POWERPOINT_DB.REPORTING.GENERATE_ACCOUNT_POWERPOINT('")%string.

Definition call_tail : string := ("')" ++ nl ++ "            ")%string.

(** The result text of the example in section 8 of the specification. *)
Definition example_result : string :=
  "File: Acme_20241027.pptx | Download URL (valid for 24 hours): https://x".

(** A session in which every statement returns the single cell [msg]. *)
Definition replying (msg : string) : string -> PyExc + list Row :=
  fun _ => inr [[Some msg]].

(** A session in which every statement fails. *)
Definition failing (e : PyExc) : string -> PyExc + list Row :=
  fun _ => inl e.

(** The characters of a separator after its first one. *)
Definition tail (sep : string) : string := drop 1 sep.

(** ** The sidebar *)

Definition database_query : string := "SELECT CURRENT_DATABASE()".

(** What the sidebar holds. *)
Inductive SideItem : Type :=
| SideHeader (body : string)
| SideMarkdown (body : string)
| SideText (body : string).

Definition dq : string := String "034"%char "".

Definition sidebar_help : string :=
  text [ "";
         "    ### How it works";
         "    ";
         "    1. Select an account from the list";
         "    2. Click " ++ dq ++ "Generate PowerPoint" ++ dq;
         "    3. Download using the provided URL";
         "    ";
         "    ### PowerPoint Contents";
         "    ";
         "    The generated presentation includes:";
         "    - **Slide 1**: Title slide with account name";
         "    - **Slide 2**: Account details and information";
         "    - **Slide 3**: Key performance metrics";
         "    ";
         "    ### File Format";
         "    ";
         "    Files are named: `AccountName_YYYYMMDD_HHMMSS.pptx`";
         "    ";
         "    Example: `Acme_Corporation_20241027_143022.pptx`";
         "    ";
         "    ### Download URL Expiration";
         "    ";
         "    Pre-signed URLs expire after **24 hours**. ";
         "    If the link expires, regenerate the presentation.";
         "    " ]%string.

(** The items of lines 223-253, shown whatever the queries give. *)
Definition sidebar_fixed : list SideItem :=
  [ SideHeader "ℹ️ Information";
    SideMarkdown sidebar_help;
    SideMarkdown "### 🔐 Current Session" ].

(** [session.sql(q).collect()[0][0]], with the log of the statements
    passed along. *)
Definition ask (collect : string -> PyExc + list Row) (q : string)
           (log : list string) : list string * (PyExc + Cell) :=
  (log ++ [q],
   and_then (collect q) (fun result =>
   and_then (item IndexError_list result 0) (fun row =>
   item IndexError_tuple row 0))).

(** Lines 222-262: the sidebar.  The heading of the session block is
    emitted before the queries; the three lines of text come after all
    of them, and the bare [except] drops whatever was raised. *)
Definition sidebar (collect : string -> PyExc + list Row) (log : list string)
  : list SideItem * list string :=
  match ask collect role_query log with
  | (log1, inl _) => (sidebar_fixed, log1)
  | (log1, inr current_role) =>
      match ask collect warehouse_query log1 with
      | (log2, inl _) => (sidebar_fixed, log2)
      | (log2, inr current_warehouse) =>
          match ask collect database_query log2 with
          | (log3, inl _) => (sidebar_fixed, log3)
          | (log3, inr current_database) =>
              (sidebar_fixed
                 ++ [ SideText ("Role: " ++ str_cell current_role);
                      SideText ("Warehouse: " ++ str_cell current_warehouse);
                      SideText ("Database: " ++ str_cell current_database) ],
               log3)
          end
      end
  end.

(** Two rows with the same identifier. *)
Definition acme_twin : Account :=
  {| ACCOUNT_ID := "ACC001"; ACCOUNT_NAME := "Acme Holdings";
     ACCOUNT_TYPE := "Partner"; INDUSTRY := "Finance" |}.

(** A table with the single row [dashed], and an empty table. *)
Definition dashed_table : string -> PyExc + list Account := fun _ => inr [dashed].

Definition empty_table : string -> PyExc + list Account := fun _ => inr [].

(** A session that answers the role query only. *)
Definition role_only : string -> PyExc + list Row :=
  fun q =>
    if String.eqb q role_query then inr [[Some "ANALYST"]]
    else inl (Exc "SnowparkSQLException" "No active warehouse").

(** * Facts about the string operations *)

Section StringFacts.

Lemma app_assoc_str (a b c : string) : ((a ++ b) ++ c = a ++ (b ++ c))%string.
Proof. induction a as [|x a IH]; simpl; [reflexivity | now rewrite IH]. Qed.

Lemma length_app (a b : string) :
  String.length (a ++ b) = String.length a + String.length b.
Proof. induction a as [|x a IH]; simpl; [reflexivity | now rewrite IH]. Qed.

Lemma take_drop (n : nat) (s : string) : (take n s ++ drop n s)%string = s.
Proof.
  revert s; induction n as [|n IH]; intros [|c s]; simpl; try reflexivity.
  now rewrite IH.
Qed.

Lemma take_app_length (a b : string) : take (String.length a) (a ++ b) = a.
Proof.
  induction a as [|x a IH]; simpl.
  - now destruct b.
  - now rewrite IH.
Qed.

Lemma drop_app_length (a b : string) : drop (String.length a) (a ++ b) = b.
Proof. induction a as [|x a IH]; simpl; [now destruct b | exact IH]. Qed.

Lemma drop_add (n m : nat) (s : string) : drop (n + m) s = drop m (drop n s).
Proof.
  revert s; induction n as [|n IH]; intros s; simpl.
  - reflexivity.
  - destruct s as [|c s]; [now destruct m | apply IH].
Qed.

Lemma take_all (n : nat) (s : string) : String.length s <= n -> take n s = s.
Proof.
  revert s; induction n as [|n IH]; intros [|c s] H; simpl in *; try reflexivity.
  - lia.
  - rewrite IH; [reflexivity | lia].
Qed.

(** *** Prefixes *)

Lemma prefix_app (p r : string) : prefix p (p ++ r) = true.
Proof.
  induction p as [|c p IH]; simpl.
  - now destruct r.
  - destruct (ascii_dec c c) as [_|N]; [exact IH | now elim N].
Qed.

Lemma prefix_split (p s : string) :
  prefix p s = true -> s = (p ++ drop (String.length p) s)%string.
Proof.
  revert s; induction p as [|c p IH]; intros s H.
  - now destruct s.
  - destruct s as [|d s]; simpl in H; [discriminate|].
    destruct (ascii_dec c d) as [->|]; [|discriminate].
    simpl. f_equal. now apply IH.
Qed.

Lemma prefix_length (p s : string) :
  prefix p s = true -> String.length p <= String.length s.
Proof.
  intros H. rewrite (prefix_split _ _ H), length_app. lia.
Qed.

(** Only the first [length p] characters of a text decide whether
    [p] is a prefix of it. *)
Lemma prefix_app_long (p a b : string) :
  String.length p <= String.length a -> prefix p (a ++ b) = prefix p a.
Proof.
  revert a; induction p as [|c p IH]; intros a H.
  - destruct a; simpl; [now destruct b | reflexivity].
  - destruct a as [|d a]; simpl in *; [lia|].
    destruct (ascii_dec c d); [apply IH; lia | reflexivity].
Qed.

(** *** Occurrences *)

Lemma contains_find (sub s : string) :
  contains sub s = match find sub s with Some _ => true | None => false end.
Proof.
  induction s as [|c s IH]; cbn [contains find].
  - now destruct (prefix sub "").
  - destruct (prefix sub (String c s)); cbn [orb]; [reflexivity|].
    rewrite IH. now destruct (find sub s).
Qed.

Lemma find_none_contains (sub s : string) :
  find sub s = None <-> contains sub s = false.
Proof. rewrite contains_find. destruct (find sub s); split; congruence. Qed.

Lemma contains_app (pre sub post : string) :
  contains sub (pre ++ sub ++ post) = true.
Proof.
  induction pre as [|c pre IH]; cbn [append contains].
  - destruct (sub ++ post)%string eqn:E; cbn [contains]; rewrite <- E, prefix_app;
      reflexivity.
  - rewrite IH. apply orb_true_r.
Qed.

Lemma contains_inv (sub s : string) :
  contains sub s = true -> exists pre post, s = (pre ++ sub ++ post)%string.
Proof.
  induction s as [|c s IH]; cbn [contains]; intros H.
  - rewrite orb_false_r in H. exists "", (drop (String.length sub) "").
    now apply prefix_split.
  - apply orb_true_iff in H as [H|H].
    + exists "", (drop (String.length sub) (String c s)). now apply prefix_split.
    + destruct (IH H) as (pre & post & ->). now exists (String c pre), post.
Qed.

(** [find] returns the position of an occurrence ... *)
Lemma find_some_prefix (sub s : string) (i : nat) :
  find sub s = Some i -> prefix sub (drop i s) = true /\ i <= String.length s.
Proof.
  revert i; induction s as [|c s IH]; intros i; cbn [find].
  - destruct (prefix sub "") eqn:E; [|discriminate].
    intros [= <-]. cbn [drop String.length]. split; [exact E | lia].
  - destruct (prefix sub (String c s)) eqn:E.
    + intros [= <-]. cbn [drop]. split; [exact E | lia].
    + destruct (find sub s) as [j|]; cbn [option_map]; [|discriminate].
      intros [= <-]. destruct (IH j eq_refl). cbn [drop String.length].
      split; [assumption | lia].
Qed.

(** ... and no occurrence starts before it. *)
Lemma find_some_first (sub s : string) (i j : nat) :
  find sub s = Some i -> j < i -> prefix sub (drop j s) = false.
Proof.
  revert i j; induction s as [|c s IH]; intros i j; cbn [find].
  - destruct (prefix sub ""); [intros [= <-]; lia | discriminate].
  - destruct (prefix sub (String c s)) eqn:E.
    + intros [= <-]; lia.
    + destruct (find sub s) as [k|] eqn:F; cbn [option_map]; [|discriminate].
      intros [= <-] Hj. destruct j as [|j]; cbn [drop]; [exact E|].
      apply (IH k); [reflexivity | lia].
Qed.

Lemma find_some_split (sub s : string) (i : nat) :
  find sub s = Some i ->
  s = (take i s ++ sub ++ drop (i + String.length sub) s)%string.
Proof.
  intros H. destruct (find_some_prefix _ _ _ H) as [P _].
  rewrite drop_add, <- (prefix_split _ _ P). symmetry. apply take_drop.
Qed.

(** *** [split] *)

Lemma split_scan_skip (sep s : string) (k : nat) :
  k <= String.length s -> split_scan sep s k = split_scan sep (drop k s) 0.
Proof.
  revert k; induction s as [|c s IH]; intros [|k] H; cbn [String.length] in H;
    try reflexivity; try lia.
  cbn [split_scan drop]. apply IH. lia.
Qed.

Lemma split_scan_hit (sep s : string) :
  sep <> "" -> prefix sep s = true ->
  split_scan sep s 0 = "" :: split_scan sep (drop (String.length sep) s) 0.
Proof.
  intros Hsep H. pose proof (prefix_length _ _ H) as L.
  destruct sep as [|a sep]; [contradiction|].
  destruct s as [|c s]; [discriminate|].
  cbn [split_scan]. rewrite H. cbn [String.length drop] in *.
  replace (S (String.length sep) - 1) with (String.length sep) by lia.
  f_equal. apply split_scan_skip. lia.
Qed.

Lemma split_scan_miss (sep s : string) (c : ascii) :
  prefix sep (String c s) = false ->
  split_scan sep (String c s) 0 = cons_head c (split_scan sep s 0).
Proof. intros H. cbn [split_scan]. now rewrite H. Qed.

Lemma split_scan_absent (sep s : string) :
  find sep s = None -> split_scan sep s 0 = [s].
Proof.
  induction s as [|c s IH]; cbn [find]; [reflexivity|].
  destruct (prefix sep (String c s)) eqn:E; [discriminate|].
  destruct (find sep s); cbn [option_map]; [discriminate|]. intros _.
  rewrite (split_scan_miss _ _ _ E), IH; reflexivity.
Qed.

Lemma split_scan_found (sep s : string) (i : nat) :
  sep <> "" -> find sep s = Some i ->
  split_scan sep s 0
  = take i s :: split_scan sep (drop (i + String.length sep) s) 0.
Proof.
  intros Hsep. revert i; induction s as [|c s IH]; intros i; cbn [find].
  - destruct sep; [contradiction | discriminate].
  - destruct (prefix sep (String c s)) eqn:E.
    + intros [= <-]. now rewrite (split_scan_hit _ _ Hsep E).
    + destruct (find sep s) as [j|]; cbn [option_map]; [|discriminate].
      intros [= <-]. rewrite (split_scan_miss _ _ _ E), (IH j eq_refl).
      reflexivity.
Qed.

(** The first field of a split is the text before the first
    separator, or the whole text. *)
Lemma split_scan_first (sep s : string) :
  sep <> "" ->
  exists fields,
    split_scan sep s 0 = take (index_or_end sep s) s :: fields.
Proof.
  intros Hsep. unfold index_or_end. destruct (find sep s) as [i|] eqn:F.
  - rewrite (split_scan_found _ _ _ Hsep F). eauto.
  - rewrite (split_scan_absent _ _ F), take_all by lia. eauto.
Qed.

Lemma index_or_end_hit (sep s : string) :
  prefix sep s = true -> index_or_end sep s = 0.
Proof.
  unfold index_or_end. destruct s; cbn [find]; now intros ->.
Qed.

Lemma index_or_end_miss (sep s : string) (c : ascii) :
  prefix sep (String c s) = false ->
  index_or_end sep (String c s) = S (index_or_end sep s).
Proof.
  unfold index_or_end. cbn [find]. intros ->.
  now destruct (find sep s).
Qed.

(** Cutting a text short does not move the first occurrence of a
    one-character separator that lies before the cut. *)
Lemma take_index_single (c : ascii) (n : nat) (s : string) :
  take (index_or_end (String c "") (take n s)) (take n s)
  = take (Nat.min (index_or_end (String c "") s) n) s.
Proof.
  revert n; induction s as [|d s IH]; intros [|n]; cbn [take];
    rewrite ?Nat.min_0_r; try reflexivity.
  destruct (prefix (String c "") (String d s)) eqn:E.
  - assert (E' : prefix (String c "") (String d (take n s)) = true).
    { cbn [prefix] in *. destruct (ascii_dec c d); [|discriminate].
      now destruct (take n s). }
    now rewrite (index_or_end_hit _ _ E), (index_or_end_hit _ _ E').
  - assert (E' : prefix (String c "") (String d (take n s)) = false).
    { cbn [prefix] in *. destruct (ascii_dec c d); [|reflexivity].
      now destruct s. }
    rewrite (index_or_end_miss _ _ _ E), (index_or_end_miss _ _ _ E').
    cbn [Nat.min take]. now rewrite IH.
Qed.

(** *** Characters that block an occurrence *)

Lemma all_app (f : ascii -> bool) (a b : string) :
  all f (a ++ b) = all f a && all f b.
Proof.
  induction a as [|c a IH]; cbn [append all]; [reflexivity|].
  now rewrite IH, andb_assoc.
Qed.

Lemma all_impl (f g : ascii -> bool) (s : string) :
  (forall c, f c = true -> g c = true) -> all f s = true -> all g s = true.
Proof.
  intros Hfg. induction s as [|c s IH]; cbn [all]; [reflexivity|].
  intros H. apply andb_true_iff in H as [H1 H2].
  now rewrite (Hfg _ H1), IH.
Qed.

(** A text shorter than [sep] followed by a character that [sep]
    does not have cannot start with [sep]. *)
Lemma prefix_blocked (sep a b : string) (c : ascii) :
  String.length a < String.length sep -> all (differs c) sep = true ->
  prefix sep (a ++ String c b) = false.
Proof.
  revert a; induction sep as [|x sep IH]; intros a L D; cbn [String.length] in L;
    [lia|].
  cbn [all] in D. apply andb_true_iff in D as [D1 D2].
  destruct a as [|y a]; cbn [append prefix String.length] in *.
  - destruct (ascii_dec x c) as [->|]; [|reflexivity].
    unfold differs in D1. now rewrite Ascii.eqb_refl in D1.
  - destruct (ascii_dec x y); [|reflexivity]. apply IH; [lia | assumption].
Qed.

(** An occurrence-free text in front of [c], where [c] occurs in
    [sep] at most as its first character, only shifts the first
    occurrence. *)
Lemma find_after_clean (sep pre rest : string) (c : ascii) :
  contains sep pre = false -> all (differs c) (tail sep) = true ->
  find sep (pre ++ String c rest)
  = option_map (Nat.add (String.length pre)) (find sep (String c rest)).
Proof.
  intros Hc D. remember (find sep (String c rest)) as r eqn:Hr.
  induction pre as [|y pre IH].
  - cbn [append String.length]. rewrite <- Hr. now destruct r.
  - cbn [contains] in Hc. apply orb_false_iff in Hc as [P Hc].
    cbn [append find String.length].
    assert (E : prefix sep (String y (pre ++ String c rest)) = false).
    { destruct (Nat.le_gt_cases (String.length sep) (String.length (String y pre)))
        as [L|L].
      - change (String y (pre ++ String c rest))
          with (String y pre ++ String c rest)%string.
        now rewrite prefix_app_long.
      - destruct sep as [|x sep]; [cbn in L; lia|].
        cbn [prefix]. destruct (ascii_dec x y); [|reflexivity].
        apply prefix_blocked; [cbn [String.length] in L; lia | exact D]. }
    rewrite E, (IH Hc). now destruct r.
Qed.

(** A text without the first character of [sep] has no occurrence. *)
Lemma find_first_char_absent (x : ascii) (sep s : string) :
  all (differs x) s = true -> find (String x sep) s = None.
Proof.
  induction s as [|c s IH]; cbn [all find prefix]; [reflexivity|].
  intros H. apply andb_true_iff in H as [H1 H2].
  destruct (ascii_dec x c) as [->|].
  - unfold differs in H1. now rewrite Ascii.eqb_refl in H1.
  - now rewrite (IH H2).
Qed.

Lemma isspace_differs (c x : ascii) :
  isspace x = false -> isspace c = true -> differs x c = true.
Proof.
  intros Hx Hc. unfold differs. destruct (Ascii.eqb_spec c x) as [->|];
    [congruence | reflexivity].
Qed.

(** *** [strip] *)

Lemma isspace_small (c : ascii) : isspace c = true -> nat_of_ascii c <= 32.
Proof.
  unfold isspace. intros H. apply orb_true_iff in H as [H|H];
    apply andb_true_iff in H as [_ H]; apply Nat.leb_le in H; lia.
Qed.

(** A blank of one byte never is the second or third byte of a longer
    white-space character. *)
Lemma space2_not_space (a b : ascii) : isspace b = true -> space2 a b = false.
Proof.
  intros H. apply isspace_small in H. unfold space2.
  destruct (Nat.eqb_spec (nat_of_ascii b) 133); [lia|].
  destruct (Nat.eqb_spec (nat_of_ascii b) 160); [lia|].
  apply andb_false_r.
Qed.

Lemma space3_not_space_2 (a b c : ascii) : isspace b = true -> space3 a b c = false.
Proof.
  intros H. apply isspace_small in H. unfold space3.
  destruct (Nat.eqb_spec (nat_of_ascii b) 154); [lia|].
  destruct (Nat.eqb_spec (nat_of_ascii b) 128); [lia|].
  destruct (Nat.eqb_spec (nat_of_ascii b) 129); [lia|].
  now rewrite !andb_false_r.
Qed.

Lemma space3_not_space_3 (a b c : ascii) : isspace c = true -> space3 a b c = false.
Proof.
  intros H. apply isspace_small in H. unfold space3.
  destruct (Nat.eqb_spec (nat_of_ascii c) 128); [lia|].
  destruct (Nat.eqb_spec (nat_of_ascii c) 168); [lia|].
  destruct (Nat.eqb_spec (nat_of_ascii c) 169); [lia|].
  destruct (Nat.eqb_spec (nat_of_ascii c) 175); [lia|].
  destruct (Nat.eqb_spec (nat_of_ascii c) 159); [lia|].
  destruct (Nat.leb_spec 128 (nat_of_ascii c)); [lia|].
  now rewrite !andb_false_r.
Qed.

Lemma lstrip_1 (a : ascii) (s : string) :
  isspace a = true -> lstrip (String a s) = lstrip s.
Proof. intros H. cbn [lstrip]. now rewrite H. Qed.

Lemma lstrip_2 (a b : ascii) (s : string) :
  isspace a = false -> space2 a b = true ->
  lstrip (String a (String b s)) = lstrip s.
Proof. intros H1 H2. cbn [lstrip]. now rewrite H1, H2. Qed.

Lemma lstrip_3 (a b c : ascii) (s : string) :
  isspace a = false -> space2 a b = false -> space3 a b c = true ->
  lstrip (String a (String b (String c s))) = lstrip s.
Proof. intros H1 H2 H3. cbn [lstrip]. now rewrite H1, H2, H3. Qed.

(** The cases of [lstrip]: a white-space character of one, two or
    three bytes in front, or a text that [lstrip] leaves as it is. *)
Lemma lstrip_cases (P : string -> Prop) :
  P "" ->
  (forall a s, isspace a = true -> P s -> P (String a s)) ->
  (forall a b s, isspace a = false -> space2 a b = true -> P s ->
                 P (String a (String b s))) ->
  (forall a b c s, isspace a = false -> space2 a b = false -> space3 a b c = true ->
                   P s -> P (String a (String b (String c s)))) ->
  (forall s, s <> "" -> lstrip s = s -> P s) ->
  forall s, P s.
Proof.
  intros H0 H1 H2 H3 Hfix.
  assert (G : forall n s, String.length s <= n -> P s).
  { induction n as [|n IH]; intros s L.
    - destruct s; [exact H0 | cbn [String.length] in L; lia].
    - destruct s as [|a s1]; [exact H0|]. cbn [String.length] in L.
      destruct (isspace a) eqn:E1; [apply H1; [exact E1 | apply IH; lia]|].
      destruct s1 as [|b s2].
      { apply Hfix; [discriminate|]. cbn [lstrip]. now rewrite E1. }
      cbn [String.length] in L.
      destruct (space2 a b) eqn:E2; [apply H2; [exact E1 | exact E2 | apply IH; lia]|].
      destruct s2 as [|c s3].
      { apply Hfix; [discriminate|]. cbn [lstrip]. now rewrite E1, E2. }
      cbn [String.length] in L.
      destruct (space3 a b c) eqn:E3;
        [apply H3; [exact E1 | exact E2 | exact E3 | apply IH; lia]|].
      apply Hfix; [discriminate|]. cbn [lstrip]. now rewrite E1, E2, E3. }
  intros s. now apply (G (String.length s)).
Qed.

Lemma lstrip_spaces (w : string) : all isspace w = true -> lstrip w = "".
Proof.
  induction w as [|c w IH]; cbn [all]; [reflexivity|].
  intros H. apply andb_true_iff in H as [H1 H2]. now rewrite (lstrip_1 _ _ H1), IH.
Qed.

Lemma lstrip_suffix (s : string) : exists w, s = (w ++ lstrip s)%string.
Proof.
  induction s as [| a s E [w IH] | a b s E1 E2 [w IH] | a b c s E1 E2 E3 [w IH] | s N F]
    using lstrip_cases.
  - now exists "".
  - rewrite (lstrip_1 _ _ E). exists (String a w). cbn [append]. now rewrite <- IH.
  - rewrite (lstrip_2 _ _ _ E1 E2). exists (String a (String b w)).
    cbn [append]. now rewrite <- IH.
  - rewrite (lstrip_3 _ _ _ _ E1 E2 E3). exists (String a (String b (String c w))).
    cbn [append]. now rewrite <- IH.
  - rewrite F. now exists "".
Qed.

Lemma lstrip_idem (s : string) : lstrip (lstrip s) = lstrip s.
Proof.
  induction s as [| a s E IH | a b s E1 E2 IH | a b c s E1 E2 E3 IH | s N F]
    using lstrip_cases.
  - reflexivity.
  - now rewrite (lstrip_1 _ _ E).
  - now rewrite (lstrip_2 _ _ _ E1 E2).
  - now rewrite (lstrip_3 _ _ _ _ E1 E2 E3).
  - now rewrite !F.
Qed.

(** White space in front of a text is passed over whatever follows. *)
Lemma lstrip_app_blank (u w : string) :
  lstrip u = "" -> lstrip (u ++ w) = lstrip w.
Proof.
  induction u as [| a s E IH | a b s E1 E2 IH | a b c s E1 E2 E3 IH | s N F]
    using lstrip_cases; intros H.
  - reflexivity.
  - rewrite (lstrip_1 _ _ E) in H. cbn [append]. rewrite (lstrip_1 _ _ E). auto.
  - rewrite (lstrip_2 _ _ _ E1 E2) in H. cbn [append].
    rewrite (lstrip_2 _ _ _ E1 E2). auto.
  - rewrite (lstrip_3 _ _ _ _ E1 E2 E3) in H. cbn [append].
    rewrite (lstrip_3 _ _ _ _ E1 E2 E3). auto.
  - congruence.
Qed.

Lemma lstrip_length (s : string) : String.length (lstrip s) <= String.length s.
Proof.
  destruct (lstrip_suffix s) as [w E]. rewrite E at 2. rewrite length_app. lia.
Qed.

(** A text that does not begin with white space still does not when
    blanks of one byte are put after it. *)
Lemma lstrip_fixed_app (u w : string) :
  u <> "" -> lstrip u = u -> all isspace w = true ->
  lstrip (u ++ w) = (u ++ w)%string.
Proof.
  intros N F W. destruct u as [|a u1]; [contradiction|].
  assert (E1 : isspace a = false).
  { destruct (isspace a) eqn:E; [|reflexivity]. rewrite (lstrip_1 _ _ E) in F.
    pose proof (lstrip_length u1) as L. rewrite F in L. cbn [String.length] in L. lia. }
  destruct u1 as [|b u2].
  { cbn [append lstrip]. rewrite E1. destruct w as [|b w]; [reflexivity|].
    cbn [all] in W. apply andb_true_iff in W as [Wb W].
    rewrite (space2_not_space a b Wb). destruct w as [|c w]; [reflexivity|].
    now rewrite (space3_not_space_2 a b c Wb). }
  assert (E2 : space2 a b = false).
  { destruct (space2 a b) eqn:E; [|reflexivity]. rewrite (lstrip_2 _ _ _ E1 E) in F.
    pose proof (lstrip_length u2) as L. rewrite F in L. cbn [String.length] in L. lia. }
  destruct u2 as [|c u3].
  { cbn [append lstrip]. rewrite E1, E2. destruct w as [|c w]; [reflexivity|].
    cbn [all] in W. apply andb_true_iff in W as [Wc W].
    now rewrite (space3_not_space_3 a b c Wc). }
  assert (E3 : space3 a b c = false).
  { destruct (space3 a b c) eqn:E; [|reflexivity].
    rewrite (lstrip_3 _ _ _ _ E1 E2 E) in F.
    pose proof (lstrip_length u3) as L. rewrite F in L. cbn [String.length] in L. lia. }
  cbn [append lstrip]. now rewrite E1, E2, E3.
Qed.

Lemma lstrip_app_spaces (u w : string) :
  lstrip u <> "" -> all isspace w = true -> lstrip (u ++ w) <> "".
Proof.
  induction u as [| a s E IH | a b s E1 E2 IH | a b c s E1 E2 E3 IH | s N F]
    using lstrip_cases; intros H W.
  - now elim H.
  - rewrite (lstrip_1 _ _ E) in H. cbn [append]. rewrite (lstrip_1 _ _ E). auto.
  - rewrite (lstrip_2 _ _ _ E1 E2) in H. cbn [append].
    rewrite (lstrip_2 _ _ _ E1 E2). auto.
  - rewrite (lstrip_3 _ _ _ _ E1 E2 E3) in H. cbn [append].
    rewrite (lstrip_3 _ _ _ _ E1 E2 E3). auto.
  - rewrite (lstrip_fixed_app _ _ N F W). destruct s; [contradiction | discriminate].
Qed.

Lemma rstrip_blank (s : string) : lstrip s = "" -> rstrip s = "".
Proof. destruct s as [|c s]; [reflexivity|]. intros H. cbn [rstrip]. now rewrite H. Qed.

Lemma rstrip_keep (c : ascii) (s : string) :
  lstrip (String c s) <> "" -> rstrip (String c s) = String c (rstrip s).
Proof.
  intros H. cbn [rstrip]. destruct (lstrip (String c s)); [now elim H | reflexivity].
Qed.

Lemma rstrip_spaces (w : string) : all isspace w = true -> rstrip w = "".
Proof. intros H. now apply rstrip_blank, lstrip_spaces. Qed.

Lemma rstrip_app_spaces (a w : string) :
  all isspace w = true -> rstrip (a ++ w) = rstrip a.
Proof.
  intros H. induction a as [|c a IH]; cbn [append].
  - now apply rstrip_spaces.
  - destruct (lstrip (String c a)) as [|d r] eqn:E.
    + rewrite (rstrip_blank _ E). apply rstrip_blank.
      change (String c (a ++ w)) with (String c a ++ w)%string.
      rewrite (lstrip_app_blank _ _ E). now apply lstrip_spaces.
    + assert (N : lstrip (String c a) <> "") by (rewrite E; discriminate).
      rewrite (rstrip_keep _ _ N), <- IH. apply rstrip_keep.
      change (String c (a ++ w)) with (String c a ++ w)%string.
      now apply lstrip_app_spaces.
Qed.

Lemma strip_app_spaces (a w : string) :
  all isspace w = true -> strip (a ++ w) = strip a.
Proof. intros H. unfold strip. now rewrite rstrip_app_spaces. Qed.

(** What [rstrip] cuts off is white space. *)
Lemma rstrip_prefix_blank (s : string) :
  exists w, s = (rstrip s ++ w)%string /\ lstrip w = "".
Proof.
  induction s as [|c s (w & IH & B)]; [now exists ""|].
  destruct (lstrip (String c s)) as [|d r] eqn:E.
  - rewrite (rstrip_blank _ E). now exists (String c s).
  - assert (N : lstrip (String c s) <> "") by (rewrite E; discriminate).
    rewrite (rstrip_keep _ _ N). exists w. cbn [append]. now rewrite <- IH.
Qed.

Lemma rstrip_prefix (s : string) : exists w, s = (rstrip s ++ w)%string.
Proof. destruct (rstrip_prefix_blank s) as (w & E & _). now exists w. Qed.

Lemma rstrip_idem (s : string) : rstrip (rstrip s) = rstrip s.
Proof.
  induction s as [|c s IH]; [reflexivity|].
  destruct (lstrip (String c s)) as [|d r] eqn:E.
  - now rewrite (rstrip_blank _ E).
  - assert (N : lstrip (String c s) <> "") by (rewrite E; discriminate).
    rewrite (rstrip_keep _ _ N).
    rewrite rstrip_keep; [now rewrite IH|].
    intros B. apply N. destruct (rstrip_prefix_blank s) as (w & Es & Bw).
    rewrite Es. change (String c (rstrip s ++ w)) with (String c (rstrip s) ++ w)%string.
    now rewrite (lstrip_app_blank _ _ B).
Qed.

Lemma rstrip_fixed_tail (c : ascii) (s : string) :
  rstrip (String c s) = String c s -> rstrip s = s.
Proof.
  cbn [rstrip]. destruct (lstrip (String c s)); [discriminate|]. now intros [= ->].
Qed.

Lemma rstrip_lstrip_fixed (s : string) :
  rstrip s = s -> rstrip (lstrip s) = lstrip s.
Proof.
  induction s as [| a s E IH | a b s E1 E2 IH | a b c s E1 E2 E3 IH | s N F]
    using lstrip_cases; intros H.
  - reflexivity.
  - rewrite (lstrip_1 _ _ E). apply IH. now apply (rstrip_fixed_tail a).
  - rewrite (lstrip_2 _ _ _ E1 E2). apply IH.
    now apply (rstrip_fixed_tail b), (rstrip_fixed_tail a).
  - rewrite (lstrip_3 _ _ _ _ E1 E2 E3). apply IH.
    now apply (rstrip_fixed_tail c), (rstrip_fixed_tail b), (rstrip_fixed_tail a).
  - now rewrite F.
Qed.

(** A stripped text has no white space left at either end. *)
Lemma strip_fixed (s : string) :
  lstrip (strip s) = strip s /\ rstrip (strip s) = strip s.
Proof.
  unfold strip. split; [apply lstrip_idem|].
  apply rstrip_lstrip_fixed, rstrip_idem.
Qed.

End StringFacts.

(** * Facts about the parsing of the result message *)

Section Parsing.

Lemma split_nonempty (sep s : string) :
  sep <> "" -> split sep s = inr (split_scan sep s 0).
Proof. destruct sep; [contradiction | reflexivity]. Qed.

Lemma contains_true_find (sub s : string) :
  contains sub s = true -> find sub s = Some (index_or_end sub s).
Proof.
  rewrite contains_find. unfold index_or_end.
  destruct (find sub s); [reflexivity | discriminate].
Qed.

Lemma extract_url_found (msg : string) (i : nat) :
  find url_marker msg = Some i ->
  let rest := drop (i + String.length url_marker) msg in
  extract_url msg = inr (strip (take (index_or_end url_marker rest) rest)).
Proof.
  intros F rest. unfold extract_url.
  assert (N : url_marker <> "") by discriminate.
  rewrite (split_nonempty _ _ N), (split_scan_found _ _ _ N F).
  fold rest. destruct (split_scan_first url_marker rest N) as [fields ->].
  reflexivity.
Qed.

Lemma extract_url_absent (msg : string) :
  contains url_marker msg = false -> extract_url msg = inl IndexError_list.
Proof.
  intros H. apply find_none_contains in H. unfold extract_url.
  rewrite split_nonempty by discriminate.
  now rewrite (split_scan_absent _ _ H).
Qed.

Lemma extract_file_name_found (msg : string) (i : nat) :
  find "File:" msg = Some i ->
  let rest := drop (i + 5) msg in
  extract_file_name msg
  = inr (strip (take (Nat.min (index_or_end "|" rest) (index_or_end "File:" rest))
                     rest)).
Proof.
  intros F rest. unfold extract_file_name.
  assert (N : "File:" <> "") by discriminate.
  assert (N' : "|" <> "") by discriminate.
  rewrite (split_nonempty _ _ N), (split_scan_found _ _ _ N F).
  change (String.length "File:") with 5. fold rest.
  destruct (split_scan_first "File:" rest N) as [fields ->].
  cbn [and_then item nth_error]. rewrite (split_nonempty _ _ N').
  destruct (split_scan_first "|" (take (index_or_end "File:" rest) rest) N')
    as [fields' ->].
  cbn [and_then item nth_error]. now rewrite take_index_single.
Qed.

Lemma show_emit (w : Widget) (p : Page) : show w p = (emit [w] p, inr tt).
Proof. reflexivity. Qed.

Lemma emit_emit (ws ws' : list Widget) (p : Page) :
  emit ws' (emit ws p) = emit (ws ++ ws') p.
Proof. unfold emit; cbn [shown queries]. now rewrite app_assoc. Qed.

Lemma emit_nil (p : Page) : emit [] p = p.
Proof. destruct p. unfold emit; cbn [shown queries]. now rewrite app_nil_r. Qed.

Lemma extract_url_caught (msg : string) (e : PyExc) :
  extract_url msg = inl e -> caught e = true.
Proof.
  destruct (contains url_marker msg) eqn:C.
  - pose proof (extract_url_found _ _ (contains_true_find _ _ C)) as E.
    cbv zeta in E. rewrite E. discriminate.
  - rewrite (extract_url_absent _ C). now intros [= <-].
Qed.

End Parsing.

(** * Facts about the rendering *)

Section Rendering.

Lemma show_file_name_absent (msg : string) (p : Page) :
  contains "File:" msg = false -> show_file_name msg p = (p, inr None).
Proof. intros H. unfold show_file_name. now rewrite H. Qed.

Lemma show_file_name_present (msg : string) (p : Page) :
  contains "File:" msg = true ->
  exists file_name,
    extract_file_name msg = inr file_name /\
    show_file_name msg p = (emit [Info (file_name_info file_name)] p, inr (Some file_name)).
Proof.
  intros H. pose proof (extract_file_name_found _ _ (contains_true_find _ _ H)) as E.
  cbv zeta in E. eexists. split; [exact E|].
  unfold show_file_name, bind, lift. now rewrite H, E.
Qed.

Lemma show_download_run (msg : string) (file_name : option string) (p : Page) :
  show_download msg file_name p
  = match extract_url msg with
    | inl e => (p, inl e)
    | inr url =>
        match file_name with
        | None => (emit (download_head url) p, inl (NameError "file_name"))
        | Some f =>
            (emit (download_head url
                     ++ [Code (snowsql_command f) (Some "sql"); download_tip]) p,
             inr tt)
        end
    end.
Proof.
  unfold show_download, bind, lift. destruct (extract_url msg) as [e|url];
    [reflexivity|].
  rewrite !show_emit, !emit_emit. cbn [app].
  destruct file_name as [f|]; cbn [local ret raise]; [|reflexivity].
  now rewrite !show_emit, !emit_emit.
Qed.

Lemma render_result_failure (msg : string) (p : Page) :
  is_success msg = false ->
  render_result msg p
  = (emit [Error failure_banner; TextArea "Error details:" msg] p, inr tt).
Proof.
  intros H. unfold render_result, bind. rewrite H.
  now rewrite !show_emit, emit_emit.
Qed.

Lemma render_result_success (msg : string) (p : Page) :
  is_success msg = true ->
  render_result msg p
  = match show_file_name msg (emit [Success success_banner] p) with
    | (p', inr file_name) =>
        if contains "Download URL" msg then show_download msg file_name p'
        else (emit [TextArea "Result:" msg] p', inr tt)
    | (p', inl e) => (p', inl e)
    end.
Proof.
  intros H. unfold render_result, bind. rewrite H, show_emit.
  destruct (show_file_name msg (emit [Success success_banner] p)) as [p' [e|f]];
    [reflexivity|].
  now destruct (contains "Download URL" msg).
Qed.

Lemma contains_weaken (a b s : string) :
  contains (a ++ b) s = true -> contains a s = true.
Proof.
  intros H. destruct (contains_inv _ _ H) as (pre & post & ->).
  rewrite app_assoc_str. apply contains_app.
Qed.

Lemma url_marker_download (msg : string) :
  contains url_marker msg = true -> contains "Download URL" msg = true.
Proof. apply (contains_weaken "Download URL" " (valid for 24 hours):"). Qed.

Lemma lower_app (a b : string) : lower (a ++ b) = (lower a ++ lower b)%string.
Proof. induction a as [|c a IH]; cbn [append lower]; [reflexivity | now rewrite IH]. Qed.







(** What the file-name step leaves behind, by cases on the marker. *)
Lemma show_file_name_cases (msg : string) (p : Page) :
  exists info name,
    show_file_name msg p = (emit info p, inr name) /\
    ((contains "File:" msg = false /\ info = [] /\ name = None) \/
     (contains "File:" msg = true /\
      exists f, extract_file_name msg = inr f /\
                info = [Info (file_name_info f)] /\ name = Some f)).
Proof.
  destruct (contains "File:" msg) eqn:E.
  - destruct (show_file_name_present msg p E) as (f & Ef & Hf).
    exists [Info (file_name_info f)], (Some f). split; [exact Hf|].
    right. split; [reflexivity|]. now exists f.
  - exists [], None. rewrite (show_file_name_absent msg p E). split.
    + unfold emit. rewrite app_nil_r. now destruct p.
    + now left.
Qed.

(** The rendering raises nothing but instances of [Exception]. *)
Lemma render_result_caught (msg : string) (p p' : Page) (e : PyExc) :
  render_result msg p = (p', inl e) -> caught e = true.
Proof.
  destruct (is_success msg) eqn:S.
  - rewrite (render_result_success _ _ S).
    destruct (show_file_name_cases msg (emit [Success success_banner] p))
      as (info & name & -> & _).
    destruct (contains "Download URL" msg); [|discriminate].
    rewrite show_download_run. destruct (extract_url msg) as [e'|url] eqn:U.
    + intros [= _ <-]. exact (extract_url_caught _ _ U).
    + destruct name; [discriminate|]. now intros [= _ <-].
  - now rewrite (render_result_failure _ _ S).
Qed.

Lemma render_result_queries (msg : string) (p : Page) :
  queries (fst (render_result msg p)) = queries p.
Proof.
  destruct (is_success msg) eqn:S.
  - rewrite (render_result_success _ _ S).
    destruct (show_file_name_cases msg (emit [Success success_banner] p))
      as (info & name & -> & _).
    destruct (contains "Download URL" msg); [|reflexivity].
    rewrite show_download_run.
    destruct (extract_url msg); [reflexivity|]. now destruct name.
  - now rewrite (render_result_failure _ _ S).
Qed.

End Rendering.

(** * The handler *)

Section Handler.

Variable collect : string -> PyExc + list Row.

Lemma call_and_render_returned (id msg : string) (cells : list Cell)
      (rows : list Row) (p : Page) :
  collect (call_statement id) = inr ((Some msg :: cells) :: rows) ->
  call_and_render collect id p = render_result msg (sent [call_statement id] p).
Proof.
  intros H. unfold call_and_render, bind, sql_collect, lift. now rewrite H.
Qed.

Lemma generate_run (id : string) (p : Page) :
  generate collect id p
  = match call_and_render collect id p with
    | (p', inl (Exc cls msg)) => on_error collect (Exc cls msg) p'
    | (p', inl (BaseExc cls msg)) => (p', inl (BaseExc cls msg))
    | (p', inr tt) => (p', inr tt)
    end.
Proof.
  unfold generate, try_except.
  now destruct (call_and_render collect id p) as [p' [[cls msg|cls msg]|[]]].
Qed.

Lemma generate_caught (id : string) (e : PyExc) (p p' : Page) :
  call_and_render collect id p = (p', inl e) -> caught e = true ->
  generate collect id p = on_error collect e p'.
Proof.
  intros H C. rewrite generate_run, H. now destruct e.
Qed.

Lemma call_and_render_raised (id : string) (e : PyExc) (p : Page) :
  collect (call_statement id) = inl e ->
  call_and_render collect id p = (sent [call_statement id] p, inl e).
Proof.
  intros H. unfold call_and_render, bind, sql_collect, lift. now rewrite H.
Qed.

(** What the body of the [try] raises is an instance of [Exception],
    unless the call itself raised it. *)
Lemma call_and_render_caught (id : string) (p p' : Page) (e : PyExc) :
  call_and_render collect id p = (p', inl e) ->
  caught e = true \/
  (collect (call_statement id) = inl e /\ p' = sent [call_statement id] p).
Proof.
  cbv [call_and_render bind sql_collect lift item].
  destruct (collect (call_statement id)) as [e0|[|[|[msg|] cells] rows]];
    cbn [nth_error]; try (intros [= _ <-]; now left).
  - intros [= <- <-]. now right.
  - intros H. left. exact (render_result_caught _ _ _ _ H).
Qed.

(** The inner [try] of the troubleshooting box never raises; it adds
    one widget and at most the two diagnostic statements. *)
Lemma session_settings_run (p : Page) :
  exists w qs,
    session_settings collect p = (emit [w] (sent qs p), inr tt) /\
    incl qs [role_query; warehouse_query].
Proof.
  cbv [session_settings try_bare bind first_cell sql_collect lift item].
  destruct (collect role_query) as [e|[|[|c r] rows]]; cbn [nth_error];
    try (eexists; exists [role_query]; split;
         [reflexivity | intros q [<-|[]]; now left]).
  destruct (collect warehouse_query) as [e|[|[|c' r'] rows']]; cbn [nth_error];
    eexists; exists [role_query; warehouse_query];
    (split; [ unfold show, emit, sent; cbn [shown queries];
              rewrite <- ?app_assoc; reflexivity
            | apply incl_refl ]).
Qed.

Lemma on_error_run (e : PyExc) (p : Page) :
  exists box qs,
    on_error collect e p
    = (emit [Error (generation_error e); Expander "🔧 Troubleshooting" box]
            (sent qs p), inr tt) /\
    incl qs [role_query; warehouse_query].
Proof.
  unfold on_error, bind, st_expander. rewrite show_emit.
  cbn [shown queries emit]. rewrite show_emit.
  destruct (session_settings_run
              (emit [Markdown common_issues]
                 {| shown := []; queries := queries p |})) as (w & qs & -> & I).
  exists [Markdown common_issues; w], qs. split; [|exact I].
  unfold emit, sent; cbn [shown queries app]. now rewrite <- app_assoc.
Qed.

(** The handler lets through what the call raised outside the
    [Exception] hierarchy, and nothing else. *)
Lemma generate_outcome (id : string) (p : Page) :
  snd (generate collect id p) = uncaught (collect (call_statement id)).
Proof.
  rewrite generate_run.
  destruct (collect (call_statement id)) as [[cls msg|cls msg]|rows] eqn:E.
  - rewrite (call_and_render_raised _ _ p E).
    now destruct (on_error_run (Exc cls msg) (sent [call_statement id] p))
      as (box & qs & -> & _).
  - now rewrite (call_and_render_raised _ _ p E).
  - destruct (call_and_render collect id p) as [p' [[cls msg|cls msg]|[]]] eqn:C.
    + now destruct (on_error_run (Exc cls msg) p') as (box & qs & -> & _).
    + destruct (call_and_render_caught _ _ _ _ C) as [K|[K _]];
        [discriminate K | congruence].
    + reflexivity.
Qed.

Lemma emit_sent_emit (ws ws' : list Widget) (q : string) (qs : list string)
      (p : Page) :
  emit ws' (sent qs (emit ws (sent [q] p))) = emit (ws ++ ws') (sent (q :: qs) p).
Proof.
  unfold emit, sent; cbn [shown queries]. now rewrite <- !app_assoc.
Qed.

Lemma call_and_render_queries (id : string) (p : Page) :
  queries (fst (call_and_render collect id p)) = queries p ++ [call_statement id].
Proof.
  cbv [call_and_render bind sql_collect lift item].
  destruct (collect (call_statement id)) as [e|[|[|[msg|] cells] rows]];
    cbn [nth_error]; try reflexivity.
  apply (render_result_queries msg (sent [call_statement id] p)).
Qed.

(** The handler sends the call statement first, and after it at most
    the two diagnostic statements. *)
Lemma generate_queries (id : string) (p : Page) :
  exists qs,
    queries (fst (generate collect id p)) = queries p ++ call_statement id :: qs /\
    incl qs [role_query; warehouse_query].
Proof.
  rewrite generate_run. pose proof (call_and_render_queries id p) as Q.
  destruct (call_and_render collect id p) as [p' [[cls msg|cls msg]|[]]];
    cbn [fst] in Q.
  - destruct (on_error_run (Exc cls msg) p') as (box & qs & -> & I).
    exists qs. split; [|exact I].
    cbn [fst emit sent queries]. now rewrite Q, <- app_assoc.
  - exists []. split; [exact Q | apply incl_nil_l].
  - exists []. split; [exact Q | apply incl_nil_l].
Qed.

Lemma on_generate_run (generate_button : bool) (final : option string) (p : Page) :
  on_generate collect generate_button final p
  = if generate_button && truthy final
    then generate collect (str_cell final)
           (emit [Spinner ("Generating PowerPoint for account "
                             ++ str_cell final ++ "...")%string] p)
    else (p, inr tt).
Proof.
  unfold on_generate. destruct (generate_button && truthy final); reflexivity.
Qed.

Lemma on_generate_outcome (generate_button : bool) (final : option string)
      (p : Page) :
  snd (on_generate collect generate_button final p)
  = if generate_button && truthy final
    then uncaught (collect (call_statement (str_cell final)))
    else inr tt.
Proof.
  rewrite on_generate_run.
  destruct (generate_button && truthy final); [apply generate_outcome | reflexivity].
Qed.

Lemma truthy_some (final : option string) :
  truthy final = true -> final = Some (str_cell final) /\ str_cell final <> "".
Proof. destruct final as [[|c s]|]; try discriminate. now split. Qed.

Lemma on_generate_queries (generate_button : bool) (final : option string)
      (p : Page) :
  queries (fst (on_generate collect generate_button final p)) = queries p \/
  exists qs,
    truthy final = true /\
    queries (fst (on_generate collect generate_button final p))
    = queries p ++ call_statement (str_cell final) :: qs /\
    incl qs [role_query; warehouse_query].
Proof.
  rewrite on_generate_run.
  destruct generate_button; cbn [andb]; [|now left].
  destruct (truthy final) eqn:T; [|now left]. right.
  match goal with |- context [generate collect ?i ?q] =>
    destruct (generate_queries i q) as (qs & Q & I) end.
  exists qs. now repeat split.
Qed.

End Handler.

(** * The call statement *)

Section CallStatement.

Lemma app_inv_head_str (a u v : string) : (a ++ u = a ++ v)%string -> u = v.
Proof. induction a as [|c a IH]; cbn [append]; [trivial|]. intros [= H]. auto. Qed.

Lemma app_inv_tail_str (u v t : string) : (u ++ t = v ++ t)%string -> u = v.
Proof.
  revert v; induction u as [|c u IH]; intros [|d v] H; cbn [append] in H.
  - reflexivity.
  - apply (f_equal String.length) in H. cbn [String.length] in H.
    rewrite length_app in H. lia.
  - apply (f_equal String.length) in H. cbn [String.length] in H.
    rewrite length_app in H. lia.
  - injection H as -> H. f_equal. now apply IH.
Qed.

Lemma call_statement_shape (id : string) :
  call_statement id = (call_head ++ id ++ call_tail)%string.
Proof.
  unfold call_statement, call_head, call_tail, text.
  cbn [String.concat append nl]. now rewrite app_assoc_str.
Qed.

Lemma call_statement_inj (a b : string) :
  call_statement a = call_statement b -> a = b.
Proof.
  rewrite !call_statement_shape. intros H.
  apply app_inv_head_str in H. now apply app_inv_tail_str in H.
Qed.

Lemma call_statement_not_fixed (id : string) :
  ~ In (call_statement id) [accounts_query; role_query; warehouse_query].
Proof.
  rewrite call_statement_shape.
  intros [H|[H|[H|[]]]]; vm_compute in H; discriminate H.
Qed.

End CallStatement.

(** * The whole script *)

Section Script.

Variable to_pandas : string -> PyExc + list Account.
Variable collect : string -> PyExc + list Row.
Variable revenue_text : Account -> PyExc + string.
Variable employees_text : Account -> PyExc + string.

(** The selector sends the accounts query only, and only adds to the
    page. *)
Lemma select_account_run (choice : nat) (p : Page) :
  exists ws r,
    select_account to_pandas choice p = (emit ws (sent [accounts_query] p), r).
Proof.
  cbv [select_account try_except bind sql_to_pandas st_selectbox show lift ret raise
       AttributeError_None].
  destruct (to_pandas accounts_query) as [[cls msg|cls msg]|df].
  - eexists; eexists. rewrite emit_emit. reflexivity.
  - exists [], (inl (BaseExc cls msg)). now rewrite emit_nil.
  - destruct (nth_error (account_options df) choice) as [selected|].
    + destruct (account_id_of selected) as [[cls msg|cls msg]|id]; eexists; eexists;
        rewrite !emit_emit; reflexivity.
    + eexists; eexists. rewrite !emit_emit. reflexivity.
Qed.

(** The detail panel line by line: what is on the page when one of
    its lines raises. *)
Lemma details_panel_run (account_id : option string) (df : list Account) (p : Page) :
  details_panel revenue_text employees_text account_id df p
  = if truthy account_id then
      match account_row df (str_cell account_id) with
      | inl e => (p, inl e)
      | inr row =>
          let name := Metric "Account Name" (ACCOUNT_NAME row) in
          let type := Metric "Type" (ACCOUNT_TYPE row) in
          match revenue_text row with
          | inl e => (emit [name; type] p, inl e)
          | inr revenue =>
              match employees_text row with
              | inl e => (emit [name; type; Metric "Revenue" revenue] p, inl e)
              | inr employees =>
                  (emit [ name; type; Metric "Revenue" revenue;
                          Metric "Employees" employees;
                          Metric "Industry" (INDUSTRY row) ] p, inr tt)
              end
          end
      end
    else (p, inr tt).
Proof.
  cbv [details_panel bind lift show ret].
  destruct (truthy account_id); [|reflexivity].
  destruct (account_row df (str_cell account_id)) as [e|row]; [reflexivity|].
  cbv zeta. destruct (revenue_text row) as [e|revenue];
    [now rewrite !emit_emit|].
  destruct (employees_text row) as [e|employees]; now rewrite !emit_emit.
Qed.

Lemma details_panel_shape (account_id : option string) (df : list Account)
      (p : Page) :
  exists ws r,
    details_panel revenue_text employees_text account_id df p = (emit ws p, r).
Proof.
  rewrite details_panel_run.
  destruct (truthy account_id); [|exists [], (inr tt); now rewrite emit_nil].
  destruct (account_row df (str_cell account_id)) as [e|row];
    [exists [], (inl e); now rewrite emit_nil|].
  cbv zeta. destruct (revenue_text row) as [e|revenue]; [eauto|].
  destruct (employees_text row) as [e|employees]; eauto.
Qed.

(** A run of the script sends the accounts query, and after it either
    nothing or what the handler sends for a non-empty identifier. *)
Lemma app_queries (choice : nat) (typed : option string) (pressed : bool)
      (p : Page) :
  let run := app to_pandas collect revenue_text employees_text
                 choice typed pressed p in
  queries (fst run) = queries p ++ [accounts_query] \/
  exists id qs,
    id <> "" /\
    queries (fst run) = queries p ++ accounts_query :: call_statement id :: qs /\
    incl qs [role_query; warehouse_query].
Proof.
  cbv zeta. unfold app, bind.
  destruct (select_account_run choice p) as (ws & [e|[account_id df]] & ->);
    [now left|].
  destruct (details_panel_shape account_id df (emit ws (sent [accounts_query] p)))
    as (ws' & [e|[]] & ->); [now left|].
  rewrite emit_emit.
  set (value := if truthy account_id then str_cell account_id else "").
  cbv [st_text_input st_button bind show ret].
  match goal with |- context [on_generate collect ?b ?f ?q] =>
    destruct (on_generate_queries collect b f q) as [E|(qs & T & E & I)] end.
  - left. rewrite E. reflexivity.
  - right. destruct (truthy_some _ T) as [_ N].
    eexists; exists qs. split; [exact N|]. split; [|exact I].
    rewrite E. cbn [queries emit sent]. rewrite <- app_assoc. reflexivity.
Qed.

End Script.

(** * Properties of the form *)

(** ** Classification of the result *)





(** ** The broad handler *)

(** C8, as the code has it: every exception of the call or of the
    rendering that is an instance of [Exception] is caught; the page
    gets, after what had been shown, the inline message "Error
    generating PowerPoint: " with the text of the exception, followed
    by the troubleshooting box, and the handler ends normally.  What
    the call raises outside the [Exception] hierarchy
    (KeyboardInterrupt, SystemExit and the like) is not caught: it
    leaves the handler, and the block under the button, with nothing
    added to the page; the rendering raises nothing of that kind. *)
Theorem handler_catches_exceptions (collect : string -> PyExc + list Row)
        (id : string) (p : Page) :
  let call := fun id : string =>
    String.concat (String "010"%char "")
      [ "";
        ("                CALL POWERPOINT_DB.REPORTING.GENERATE_ACCOUNT_POWERPOINT('"
           ++ id ++ "')")%string;
        "            " ] in
  match call_and_render collect id p with
  | (p', inl (Exc cls msg)) =>
      exists box qs,
        generate collect id p
        = (emit [ Error ("❌ Error generating PowerPoint: " ++ msg)%string;
                  Expander "🔧 Troubleshooting" box ]
                (sent qs p'), inr tt)
  | (p', inl (BaseExc cls msg)) =>
      collect (call id) = inl (BaseExc cls msg) /\
      generate collect id p = (sent [call id] p, inl (BaseExc cls msg))
  | (p', inr _) => generate collect id p = (p', inr tt)
  end /\
  snd (generate collect id p)
  = match collect (call id) with
    | inl (BaseExc cls msg) => inl (BaseExc cls msg)
    | _ => inr tt
    end /\
  (forall generate_button final,
     snd (on_generate collect generate_button final p)
     = if generate_button && truthy final then
         match collect (call (str_cell final)) with
         | inl (BaseExc cls msg) => inl (BaseExc cls msg)
         | _ => inr tt
         end
       else inr tt).
Proof.
  cbv zeta. split; [|split].
  - rewrite generate_run.
    destruct (call_and_render collect id p) as [p' [[cls msg|cls msg]|[]]] eqn:C.
    + destruct (on_error_run collect (Exc cls msg) p') as (box & qs & -> & _).
      now exists box, qs.
    + destruct (call_and_render_caught _ _ _ _ _ C) as [K|[K ->]];
        [discriminate K|]. now split.
    + reflexivity.
  - exact (generate_outcome collect id p).
  - intros b final. exact (on_generate_outcome collect b final p).
Qed.

(** The exception that the handler does not catch: an interrupt during
    the call leaves the handler and the block under the button. *)
Lemma handler_counterexample :
  interrupted (call_statement "ACC001") = inl (BaseExc "KeyboardInterrupt" "") /\
  generate interrupted "ACC001" blank
  = (sent [call_statement "ACC001"] blank, inl (BaseExc "KeyboardInterrupt" "")) /\
  snd (generate interrupted "ACC001" blank) <> inr tt /\
  snd (on_generate interrupted true (Some "ACC001") blank) <> inr tt.
Proof.
  split; [reflexivity|]. split; [vm_compute; reflexivity|].
  split; vm_compute; discriminate.
Qed.

(** ** Extraction of the file name and of the URL *)

(** C4, as amended: for a success message with "File:", the file name
    shown is the stripped text that follows the first "File:" up to the
    next "|" or the next "File:", whichever comes first, or up to the
    end of the message when neither follows. *)
Theorem file_name_until_next_marker (msg : string) (p : Page) :
  is_success msg = true ->
  contains "File:" msg = true ->
  let rest := drop (index_or_end "File:" msg + 5) msg in
  let stop := Nat.min (index_or_end "|" rest) (index_or_end "File:" rest) in
  extract_file_name msg = inr (strip (take stop rest)) /\
  exists more outcome,
    render_result msg p
    = (emit (Success success_banner
               :: Info (file_name_info (strip (take stop rest))) :: more) p,
       outcome).
Proof.
  intros S F rest stop.
  pose proof (extract_file_name_found _ _ (contains_true_find _ _ F)) as E.
  cbv zeta in E. fold rest in E. fold stop in E. split; [exact E|].
  rewrite (render_result_success _ _ S).
  destruct (show_file_name_present msg (emit [Success success_banner] p) F)
    as (f & Ef & ->).
  assert (f = strip (take stop rest)) as -> by congruence.
  rewrite emit_emit. cbn [app].
  destruct (contains "Download URL" msg).
  - rewrite show_download_run. destruct (extract_url msg) as [e|url].
    + now exists [], (inl e).
    + rewrite emit_emit. cbn [app]. eexists; eexists; reflexivity.
  - rewrite emit_emit. cbn [app]. eexists; eexists; reflexivity.
Qed.

Lemma file_name_until_next_marker_witness :
  let msg := "Generated successfully. File: a File: b | c" in
  is_success msg = true /\ contains "File:" msg = true /\
  extract_file_name msg = inr "a" /\
  exists more outcome,
    render_result msg blank
    = (emit (Success success_banner :: Info (file_name_info "a") :: more) blank,
       outcome).
Proof.
  split; [reflexivity|]. split; [reflexivity|].
  apply (file_name_until_next_marker
           "Generated successfully. File: a File: b | c" blank); reflexivity.
Defined.

(** C4 as it was stated fails when "File:" comes again before the next
    "|": the text between the first "File:" and that "|" is
    " a File: b ", while the file name shown is "a". *)
Lemma file_name_counterexample :
  let msg := "Generated successfully. File: a File: b | c" in
  is_success msg = true /\
  contains "File:" msg = true /\
  find "File:" msg = Some 24 /\
  find "|" (drop (24 + 5) msg) = Some 11 /\
  strip (take 11 (drop (24 + 5) msg)) = "a File: b" /\
  extract_file_name msg = inr "a" /\
  extract_file_name msg <> inr (strip (take 11 (drop (24 + 5) msg))) /\
  shown (fst (render_result msg blank))
  = [Success success_banner; Info (file_name_info "a");
     TextArea "Result:" msg].
Proof. repeat split. intros H. vm_compute in H. discriminate H. Qed.

(** C5, as amended: for a success message with the full URL marker, the
    URL is the stripped text that follows the first marker up to the
    next occurrence of the marker, or up to the end of the message when
    the marker does not come again; it is the address of the download
    link. *)
Theorem url_until_next_marker (msg : string) (p : Page) :
  is_success msg = true ->
  contains url_marker msg = true ->
  let rest := drop (index_or_end url_marker msg + String.length url_marker) msg in
  extract_url msg = inr (strip (take (index_or_end url_marker rest) rest)) /\
  (contains url_marker rest = false -> extract_url msg = inr (strip rest)) /\
  In (Markdown (download_link (strip (take (index_or_end url_marker rest) rest))))
     (shown (fst (render_result msg p))).
Proof.
  intros S U rest.
  pose proof (extract_url_found _ _ (contains_true_find _ _ U)) as E.
  cbv zeta in E. fold rest in E. split; [exact E|]. split.
  - intros H. rewrite E. apply find_none_contains in H.
    unfold index_or_end at 1. rewrite H. now rewrite take_all.
  - rewrite (render_result_success _ _ S).
    destruct (show_file_name_cases msg (emit [Success success_banner] p))
      as (info & name & -> & _).
    rewrite (url_marker_download _ U), show_download_run, E.
    destruct name; cbn [fst shown emit]; rewrite !in_app_iff; right;
      cbn; auto.
Qed.

Lemma url_until_next_marker_witness :
  let msg := "Generated successfully. File: f.pptx | Download URL (valid for 24 hours): https://x" in
  is_success msg = true /\ contains url_marker msg = true /\
  extract_url msg = inr "https://x".
Proof.
  split; [reflexivity|]. split; [reflexivity|].
  pose proof (url_until_next_marker
                "Generated successfully. File: f.pptx | Download URL (valid for 24 hours): https://x"
                blank eq_refl eq_refl) as H.
  cbv zeta in H. destruct H as [E _]. rewrite E. vm_compute. reflexivity.
Defined.

(** C5 as it was stated fails when the marker comes twice: the text
    after the first marker runs to the end of the message, while the
    URL taken stops at the second marker. *)
Lemma url_counterexample :
  let msg := "Done successfully. File: f | Download URL (valid for 24 hours): u Download URL (valid for 24 hours): v" in
  is_success msg = true /\
  contains url_marker msg = true /\
  find url_marker msg = Some 29 /\
  strip (drop (29 + String.length url_marker) msg)
  = "u Download URL (valid for 24 hours): v" /\
  extract_url msg = inr "u" /\
  extract_url msg <> inr (strip (drop (29 + String.length url_marker) msg)) /\
  In (Markdown (download_link "u")) (shown (fst (render_result msg blank))).
Proof.
  repeat split.
  - intros H. vm_compute in H. discriminate H.
  - vm_compute. repeat (first [left; reflexivity | right]).
Qed.

(** C3, as amended: when the example text is preceded by text holding
    neither marker and followed by blanks only, the file name taken is
    "Acme_20241027.pptx" and the URL taken is "https://x". *)
Theorem example_extraction (pre post : string) :
  contains "File:" pre = false ->
  contains url_marker pre = false ->
  all isspace post = true ->
  extract_file_name (pre ++ example_result ++ post) = inr "Acme_20241027.pptx" /\
  extract_url (pre ++ example_result ++ post) = inr "https://x".
Proof.
  intros HF HU HP.
  set (body := (example_result ++ post)%string).
  assert (B : body = String "F" (drop 1 body)) by reflexivity.
  assert (NF : all (differs "F") post = true).
  { apply (all_impl isspace); [|exact HP].
    intros c Hc. now apply isspace_differs. }
  assert (ND : all (differs "D") post = true).
  { apply (all_impl isspace); [|exact HP].
    intros c Hc. now apply isspace_differs. }
  split.
  - assert (F : find "File:" (pre ++ body) = Some (String.length pre + 0)).
    { rewrite B, find_after_clean by (assumption || reflexivity). now rewrite <- B. }
    rewrite (extract_file_name_found _ _ F).
    rewrite Nat.add_0_r, drop_add, drop_app_length.
    set (rest := drop 5 body).
    assert (R : rest = (" Acme_20241027.pptx | Download URL (valid for 24 hours): https://x"
                        ++ post)%string) by reflexivity.
    assert (I1 : index_or_end "|" rest = 20) by reflexivity.
    assert (I2 : index_or_end "File:" rest = String.length rest).
    { unfold index_or_end. rewrite find_first_char_absent; [reflexivity|].
      rewrite R, all_app, NF. reflexivity. }
    rewrite I1, I2, Nat.min_l; [reflexivity|].
    rewrite R, length_app. cbn [String.length]. lia.
  - assert (F : find url_marker (pre ++ body) = Some (String.length pre + 27)).
    { rewrite B, find_after_clean by (assumption || reflexivity). now rewrite <- B. }
    rewrite (extract_url_found _ _ F).
    rewrite <- Nat.add_assoc, drop_add, drop_app_length.
    set (rest := drop (27 + String.length url_marker) body).
    assert (R : rest = (" https://x" ++ post)%string) by reflexivity.
    assert (I : index_or_end url_marker rest = String.length rest).
    { unfold index_or_end, url_marker. rewrite find_first_char_absent; [reflexivity|].
      rewrite R, all_app, ND. reflexivity. }
    rewrite I, take_all by lia. rewrite R, strip_app_spaces by exact HP.
    reflexivity.
Qed.

Lemma example_extraction_witness :
  contains "File:" "PowerPoint generated successfully! " = false /\
  contains url_marker "PowerPoint generated successfully! " = false /\
  all isspace " " = true /\
  extract_file_name ("PowerPoint generated successfully! " ++ example_result ++ " ")
  = inr "Acme_20241027.pptx" /\
  extract_url ("PowerPoint generated successfully! " ++ example_result ++ " ")
  = inr "https://x".
Proof.
  split; [reflexivity|]. split; [reflexivity|]. split; [reflexivity|].
  apply (example_extraction "PowerPoint generated successfully! " " "); reflexivity.
Defined.

(** C3 as it was stated fails for a message that goes on after the
    example text: what follows the URL is taken as part of it. *)
Lemma example_counterexample :
  let msg := (example_result ++ " (generated successfully)")%string in
  contains example_result msg = true /\
  is_success msg = true /\
  extract_file_name msg = inr "Acme_20241027.pptx" /\
  extract_url msg = inr "https://x (generated successfully)" /\
  extract_url msg <> inr "https://x".
Proof.
  repeat split. intros H. vm_compute in H. discriminate H.
Qed.

(** ** The account selector *)

Lemma find_in_label (id name : string) :
  contains " - " id = false ->
  endswith " -" id = false ->
  find " - " (id ++ " - " ++ name) = Some (String.length id).
Proof.
  induction id as [|c id IH]; intros HC HE; [now destruct name|].
  cbn [contains] in HC. apply orb_false_iff in HC as [P HC].
  cbn [endswith] in HE. apply orb_false_iff in HE as [Q HE].
  change (String c id ++ " - " ++ name)%string
    with (String c (id ++ " - " ++ name)%string).
  cbn [find String.length].
  assert (E : prefix " - " (String c (id ++ " - " ++ name)) = false).
  { destruct id as [|d [|e r]].
    - cbn [append prefix]. destruct (ascii_dec " " c); reflexivity.
    - cbn [append prefix].
      destruct (ascii_dec " " c) as [<-|]; [|reflexivity].
      destruct (ascii_dec "-" d) as [<-|]; [|reflexivity].
      discriminate Q.
    - change (String c (String d (String e r) ++ " - " ++ name))%string
        with (String c (String d (String e r)) ++ " - " ++ name)%string.
      rewrite prefix_app_long; [exact P | cbn [String.length]; lia]. }
  rewrite E, (IH HC HE). reflexivity.
Qed.




(** ** The identifier that is passed *)

Lemma manual_field_call (collect : string -> PyExc + list Row)
        (manual_account_id : string) (account_id : option string) (p : Page) :
  let final := final_account_id manual_account_id account_id in
  (manual_account_id <> "" ->
     final = Some manual_account_id /\
     exists qs,
       queries (fst (on_generate collect true final p))
       = queries p ++ call_statement manual_account_id :: qs /\
       incl qs [role_query; warehouse_query]) /\
  (manual_account_id = "" ->
     final = account_id /\
     forall id, account_id = Some id -> id <> "" ->
       exists qs,
         queries (fst (on_generate collect true final p))
         = queries p ++ call_statement id :: qs /\
         incl qs [role_query; warehouse_query]).
Proof.
  assert (G : forall id, id <> "" ->
              exists qs,
                queries (fst (on_generate collect true (Some id) p))
                = queries p ++ call_statement id :: qs /\
                incl qs [role_query; warehouse_query]).
  { intros id N.
    destruct (on_generate_queries collect true (Some id) p) as [E|(qs & T & E & I)].
    - rewrite on_generate_run in E. destruct id as [|c id]; [contradiction|].
      cbn [andb truthy str_cell] in E.
      match type of E with context [generate collect ?i ?q] =>
        destruct (generate_queries collect i q) as (qs & Q & _) end.
      rewrite Q in E. cbn [queries emit] in E.
      apply (f_equal (@List.length string)) in E. rewrite List.length_app in E.
      cbn [List.length] in E. lia.
    - exists qs. now split. }
  cbv zeta. unfold final_account_id. split.
  - intros N. destruct manual_account_id as [|c m]; [contradiction|].
    cbn [nonempty]. split; [reflexivity|]. now apply G.
  - intros ->. cbn [nonempty]. split; [reflexivity|].
    intros id -> N. now apply G.
Qed.

(** C2: a non-empty manual field is the identifier of the call
    whatever the dropdown gave; with an empty manual field the
    identifier of the dropdown is the one that is used.  The statement
    that the handler sends first is the CALL of
    GENERATE_ACCOUNT_POWERPOINT with that identifier between the
    quotes; after it come at most the two diagnostic statements. *)
Theorem manual_field_takes_precedence (collect : string -> PyExc + list Row)
        (manual_account_id : string) (account_id : option string) (p : Page) :
  let call := fun id : string =>
    String.concat (String "010"%char "")
      [ "";
        ("                CALL POWERPOINT_DB.REPORTING.GENERATE_ACCOUNT_POWERPOINT('"
           ++ id ++ "')")%string;
        "            " ] in
  let diagnostics := ["SELECT CURRENT_ROLE()"; "SELECT CURRENT_WAREHOUSE()"] in
  let final := final_account_id manual_account_id account_id in
  (manual_account_id <> "" ->
     final = Some manual_account_id /\
     exists qs,
       queries (fst (on_generate collect true final p))
       = queries p ++ call manual_account_id :: qs /\
       incl qs diagnostics) /\
  (manual_account_id = "" ->
     final = account_id /\
     forall id, account_id = Some id -> id <> "" ->
       exists qs,
         queries (fst (on_generate collect true final p))
         = queries p ++ call id :: qs /\
         incl qs diagnostics).
Proof.
  exact (manual_field_call collect manual_account_id account_id p).
Qed.

(** ** The guard of the call *)

(** C9: without an identifier the button is shown disabled and gives
    no click, the handler does nothing whatever the button says, and in
    a whole run of the script every call statement that is sent carries
    a non-empty identifier. *)
Theorem never_called_without_identifier
        (to_pandas : string -> PyExc + list Account)
        (collect : string -> PyExc + list Row)
        (revenue_text employees_text : Account -> PyExc + string)
        (choice : nat) (typed : option string) (pressed generate_button : bool)
        (final : option string) (p : Page) :
  (if truthy final then True
   else
     st_button "🎨 Generate PowerPoint" (negb (truthy final)) pressed p
     = (emit [Button "🎨 Generate PowerPoint" true] p, inr false) /\
     on_generate collect generate_button final p = (p, inr tt)) /\
  (forall id,
     In (call_statement id)
        (queries (fst (app to_pandas collect revenue_text employees_text choice typed pressed blank)))
     -> id <> "").
Proof.
  split.
  - destruct (truthy final) eqn:T; [exact I|]. split.
    + cbv [st_button bind show ret]. now rewrite andb_false_r.
    + rewrite on_generate_run, T. now rewrite andb_false_r.
  - intros id H.
    destruct (app_queries to_pandas collect revenue_text employees_text choice typed pressed blank)
      as [E|(fid & qs & N & E & I)]; cbv zeta in E; rewrite E in H; cbn [queries blank app] in H.
    + destruct H as [H|[]]. exfalso.
      apply (call_statement_not_fixed id). rewrite <- H. now left.
    + destruct H as [H|[H|H]].
      * exfalso. apply (call_statement_not_fixed id). rewrite <- H. now left.
      * apply call_statement_inj in H. now subst.
      * exfalso. apply (call_statement_not_fixed id). right. now apply I.
Qed.

(** ** Failures of the download section *)

(** C10, as amended: take a success message that holds "Download URL"
    and is returned by the call.  When the full marker is missing, the
    rendering raises IndexError after the banner (and the file name, if
    any); the handler then shows the generation-error message, and the
    page gets neither a download link nor the raw message.  When the
    full marker is there but "File:" is missing, the download heading,
    the link and the URL are shown first, then the rendering raises
    NameError and the handler shows the generation-error message after
    them; the raw message is not shown. *)
Theorem download_section_failures (collect : string -> PyExc + list Row)
        (id msg : string) (cells : list Cell) (rows : list Row) (p : Page) :
  collect (call_statement id) = inr ((Some msg :: cells) :: rows) ->
  is_success msg = true ->
  contains "Download URL" msg = true ->
  (contains url_marker msg = false ->
     exists info box qs,
       (info = [] \/ exists f, info = [Info (file_name_info f)]) /\
       call_and_render collect id p
       = (emit (Success success_banner :: info) (sent [call_statement id] p),
          inl IndexError_list) /\
       generate collect id p
       = (emit (Success success_banner :: info
                  ++ [Error (generation_error IndexError_list);
                      Expander "🔧 Troubleshooting" box])
               (sent (call_statement id :: qs) p), inr tt) /\
       existsb is_download_link
         (Success success_banner :: info
            ++ [Error (generation_error IndexError_list);
                Expander "🔧 Troubleshooting" box]) = false /\
       existsb is_text_area
         (Success success_banner :: info
            ++ [Error (generation_error IndexError_list);
                Expander "🔧 Troubleshooting" box]) = false) /\
  (contains url_marker msg = true -> contains "File:" msg = false ->
     exists url box qs,
       extract_url msg = inr url /\
       call_and_render collect id p
       = (emit (Success success_banner :: download_head url)
               (sent [call_statement id] p),
          inl (NameError "file_name")) /\
       generate collect id p
       = (emit (Success success_banner :: download_head url
                  ++ [Error (generation_error (NameError "file_name"));
                      Expander "🔧 Troubleshooting" box])
               (sent (call_statement id :: qs) p), inr tt)).
Proof.
  intros Hcall S D.
  pose proof (call_and_render_returned collect _ _ _ _ p Hcall) as R.
  rewrite (render_result_success _ _ S), D in R.
  split.
  - intros U.
    destruct (show_file_name_cases msg
                (emit [Success success_banner] (sent [call_statement id] p)))
      as (info & name & E & Hinfo).
    rewrite E, show_download_run, (extract_url_absent _ U), emit_emit in R.
    change (emit ([?w] ++ ?ws)) with (emit (w :: ws)) in R.
    rewrite (generate_caught _ _ _ _ _ R eq_refl), R.
    destruct (on_error_run collect IndexError_list
                (emit (Success success_banner :: info) (sent [call_statement id] p)))
      as (box & qs & -> & _).
    rewrite emit_sent_emit. cbn [app].
    exists info, box, qs.
    destruct Hinfo as [(_ & -> & _)|(_ & f & _ & -> & _)];
      (split; [first [now left | right; now exists f]|]);
      repeat split; reflexivity.
  - intros U F.
    pose proof (extract_url_found _ _ (contains_true_find _ _ U)) as E.
    cbv zeta in E.
    rewrite (show_file_name_absent _ _ F), show_download_run, E, emit_emit in R.
    change (emit ([?w] ++ ?ws)) with (emit (w :: ws)) in R.
    rewrite (generate_caught _ _ _ _ _ R eq_refl), R.
    match type of R with context [download_head ?u] =>
      destruct (on_error_run collect (NameError "file_name")
                  (emit (Success success_banner :: download_head u)
                        (sent [call_statement id] p)))
        as (box & qs & -> & _);
      exists u, box, qs
    end.
    split; [exact E|]. split; [reflexivity|].
    now rewrite emit_sent_emit.
Qed.

Lemma download_section_failures_witness :
  let msg := "Generated successfully. Download URL: https://x" in
  replying msg (call_statement "ACC001") = inr [[Some msg]] /\
  is_success msg = true /\
  contains "Download URL" msg = true /\
  contains url_marker msg = false /\
  exists box qs,
    generate (replying msg) "ACC001" blank
    = (emit [Success success_banner;
             Error (generation_error IndexError_list);
             Expander "🔧 Troubleshooting" box]
            (sent (call_statement "ACC001" :: qs) blank), inr tt).
Proof.
  split; [reflexivity|]. split; [reflexivity|]. split; [reflexivity|].
  split; [reflexivity|].
  destruct (download_section_failures
              (replying "Generated successfully. Download URL: https://x")
              "ACC001" "Generated successfully. Download URL: https://x" [] [] blank
              eq_refl eq_refl eq_refl) as [H _].
  destruct (H eq_refl) as (info & box & qs & [->|[f ->]] & R & G & _).
  - now exists box, qs.
  - discriminate R.
Defined.

(** C10 as it was stated fails for a message with the full marker and
    without "File:": the handler does show the generation-error
    message, but below the download link, which is already on the
    page. *)
Lemma download_link_counterexample :
  let msg := "Generated successfully. Download URL (valid for 24 hours): https://x" in
  let page := fst (generate (replying msg) "ACC001" blank) in
  is_success msg = true /\
  contains "Download URL" msg = true /\
  contains "File:" msg = false /\
  In (Error (generation_error (NameError "file_name"))) (shown page) /\
  In (Markdown (download_link "https://x")) (shown page) /\
  existsb is_download_link (shown page) = true.
Proof.
  repeat split; vm_compute; repeat (first [left; reflexivity | right]).
Qed.

(** * Runs on concrete inputs *)

Example split_overlap : split "aa" "aaa" = inr [""; "a"].
Proof. reflexivity. Qed.

Example split_trailing : split "," "a,b," = inr ["a"; "b"; ""].
Proof. reflexivity. Qed.

Example split_absent : split "File:" "no marker" = inr ["no marker"].
Proof. reflexivity. Qed.

Example split_empty_separator : split "" "abc" = inl ValueError_empty_separator.
Proof. reflexivity. Qed.

Example strip_both : strip "  a b  " = "a b".
Proof. reflexivity. Qed.

(** A no-break space (C2 A0) in front, an em space (E2 80 83) and a
    line feed behind; the bytes of a letter with an accent (C3 A9)
    stay. *)
Example strip_unicode :
  strip (String "194" (String "160"
           (String "195" (String "169"
              (" b" ++ String "226" (String "128" (String "131" nl)))))))
  = String "195" (String "169" " b").
Proof. reflexivity. Qed.

Example lower_mixed : lower "SuccessFULLY!" = "successfully!".
Proof. reflexivity. Qed.

Example find_second : find "b" "abab" = Some 1.
Proof. reflexivity. Qed.

(** The message of the example, as the procedure words it. *)
Example full_message_page :
  shown (fst (generate
                (replying ("PowerPoint generated successfully! " ++ example_result))
                "ACC001" blank))
  = [ Success success_banner;
      Info (file_name_info "Acme_20241027.pptx");
      Markdown "### 📥 Download Options";
      Markdown (download_link "https://x");
      Code "https://x" None;
      Markdown "**Option 2: Download via SnowSQL**";
      Code "GET @POWERPOINT_DB.REPORTING.PPT_STAGE/Acme_20241027.pptx file://./;"
           (Some "sql");
      download_tip ].
Proof. vm_compute. reflexivity. Qed.

(** A call that raises: the message is shown, the diagnostic queries
    fail too and only give the warning. *)
Example failed_call_page :
  generate (failing (Exc "SnowparkSQLException" "Account not found")) "ACC404" blank
  = ({| shown :=
          [ Error "❌ Error generating PowerPoint: Account not found";
            Expander "🔧 Troubleshooting"
              [ Markdown common_issues;
                Warning "Could not retrieve current session information" ] ];
        queries := [call_statement "ACC404"; role_query] |},
     inr tt).
Proof. vm_compute. reflexivity. Qed.

(** A NULL result has no [lower]. *)
Example null_result_page :
  shown (fst (generate (fun _ => inr [[None]]) "ACC001" blank))
  = [ Error "❌ Error generating PowerPoint: 'NoneType' object has no attribute 'lower'";
      Expander "🔧 Troubleshooting"
        [ Markdown common_issues;
          Code (current_settings None None) (Some "python") ] ].
Proof. vm_compute. reflexivity. Qed.

(** The whole script: the typed identifier wins over the selected row. *)
Example typed_identifier_run :
  queries (fst (app one_account (replying "done successfully") revenue_ok employees_ok
                  0 (Some "ACC002") true blank))
  = [accounts_query; call_statement "ACC002"].
Proof. vm_compute. reflexivity. Qed.

Example selected_identifier_run :
  queries (fst (app one_account (replying "done successfully") revenue_ok employees_ok
                  0 None true blank))
  = [accounts_query; call_statement "ACC001"].
Proof. vm_compute. reflexivity. Qed.

(** A row whose REVENUE is NULL: line 96 raises outside every [try]
    when the first two metrics are on the page. *)
Example null_revenue_run :
  app one_account (replying "done successfully") revenue_null employees_ok
      0 None true blank
  = ({| shown :=
          [ Dataframe [acme];
            Selectbox "Choose an account:" ["ACC001 - Acme Corporation"];
            Metric "Account Name" "Acme Corporation";
            Metric "Type" "Customer" ];
        queries := [accounts_query] |},
     inl (Exc "TypeError" "unsupported format string passed to NoneType.__format__")).
Proof. vm_compute. reflexivity. Qed.

(** An interrupt while the table is read is not caught by line 82. *)
Example interrupted_load_run :
  app (fun _ => inl (BaseExc "KeyboardInterrupt" "")) interrupted
      revenue_ok employees_ok 0 None true blank
  = ({| shown := []; queries := [accounts_query] |},
     inl (BaseExc "KeyboardInterrupt" "")).
Proof. vm_compute. reflexivity. Qed.

(** The whole script when the table cannot be read and nothing is
    typed: the button is disabled and no call is made. *)
Example no_identifier_run :
  app no_table (replying "done successfully") revenue_ok employees_ok 0 None true blank
  = ({| shown :=
          [ Error "Error loading accounts: Object does not exist";
            Info "Using manual account ID input instead.";
            TextInput "Or enter Account ID manually:" "";
            Button "🎨 Generate PowerPoint" true ];
        queries := [accounts_query] |},
     inr tt).
Proof. vm_compute. reflexivity. Qed.

(** * Further facts about the string operations *)

Section MoreStringFacts.

Lemma length_drop (n : nat) (s : string) :
  String.length (drop n s) = String.length s - n.
Proof.
  revert s; induction n as [|n IH]; intros [|c s]; cbn [drop String.length];
    try lia.
  apply IH.
Qed.

Lemma find_some_bound (sep s : string) (i : nat) :
  find sep s = Some i -> i + String.length sep <= String.length s.
Proof.
  intros F. destruct (find_some_prefix _ _ _ F) as [P L].
  apply prefix_length in P. rewrite length_drop in P. lia.
Qed.

Lemma concat_cons (sep x y : string) (l : list string) :
  String.concat sep (x :: y :: l) = (x ++ sep ++ String.concat sep (y :: l))%string.
Proof. reflexivity. Qed.

Lemma split_scan_join (sep : string) (n : nat) (s : string) :
  sep <> "" -> String.length s <= n -> String.concat sep (split_scan sep s 0) = s.
Proof.
  intros Hsep. revert s; induction n as [|n IH]; intros s L.
  - destruct s; [reflexivity | cbn [String.length] in L; lia].
  - destruct (find sep s) as [i|] eqn:F.
    + rewrite (split_scan_found _ _ _ Hsep F).
      pose proof (find_some_bound _ _ _ F) as B.
      assert (Ls : 0 < String.length sep)
        by (destruct sep; [contradiction | cbn [String.length]; lia]).
      assert (R : String.concat sep (split_scan sep (drop (i + String.length sep) s) 0)
                  = drop (i + String.length sep) s).
      { apply IH. rewrite length_drop. lia. }
      destruct (split_scan_first sep (drop (i + String.length sep) s) Hsep)
        as [fields E].
      rewrite E in R |- *. rewrite concat_cons, R.
      symmetry. now apply find_some_split.
    + now rewrite (split_scan_absent _ _ F).
Qed.

Lemma prefix_take (p s : string) (n : nat) :
  prefix p (take n s) = true -> prefix p s = true.
Proof.
  revert n s; induction p as [|c p IH]; intros n s H.
  - now destruct s.
  - destruct n as [|n]; destruct s as [|d s]; cbn [take prefix] in *;
      try discriminate.
    destruct (ascii_dec c d); [now apply (IH n) | discriminate].
Qed.

(** Nothing occurs in the text before the first occurrence. *)
Lemma contains_take_before (sep s : string) (n : nat) :
  sep <> "" -> n <= index_or_end sep s -> contains sep (take n s) = false.
Proof.
  intros Hsep. assert (E0 : prefix sep "" = false) by (now destruct sep).
  revert n; induction s as [|c s IH]; intros n L.
  - destruct n; cbn [take contains]; now rewrite E0.
  - destruct n as [|n]; cbn [take contains]; [now rewrite E0|].
    destruct (prefix sep (String c s)) eqn:P.
    + rewrite (index_or_end_hit _ _ P) in L. lia.
    + rewrite (index_or_end_miss _ _ _ P) in L.
      rewrite IH by lia. rewrite orb_false_r.
      destruct (prefix sep (String c (take n s))) eqn:Q; [|reflexivity].
      change (String c (take n s)) with (take (S n) (String c s)) in Q.
      apply prefix_take in Q. congruence.
Qed.

Lemma contains_within (sub u x v : string) :
  contains sub x = true -> contains sub (u ++ x ++ v) = true.
Proof.
  intros H. destruct (contains_inv _ _ H) as (a & b & ->).
  replace (u ++ (a ++ sub ++ b) ++ v)%string
    with ((u ++ a) ++ sub ++ (b ++ v))%string
    by (now rewrite !app_assoc_str).
  apply contains_app.
Qed.

Lemma contains_take (sub s : string) (n : nat) :
  contains sub (take n s) = true -> contains sub s = true.
Proof.
  intros H. rewrite <- (take_drop n s).
  apply (contains_within sub "" (take n s) (drop n s) H).
Qed.

Lemma contains_strip (sub s : string) :
  contains sub (strip s) = true -> contains sub s = true.
Proof.
  intros H. unfold strip in H.
  destruct (lstrip_suffix (rstrip s)) as [u Eu].
  destruct (rstrip_prefix s) as [v Ev].
  rewrite Ev, Eu, app_assoc_str. now apply contains_within.
Qed.

End MoreStringFacts.

(** * Further properties of the parsing *)

(** X1: [split] raises for the empty separator only; otherwise it gives
    at least one field, and joining the fields with the separator
    gives the text back. *)
Theorem split_join_roundtrip (sep s : string) :
  match split sep s with
  | inr parts => sep <> "" /\ parts <> [] /\ String.concat sep parts = s
  | inl e => sep = "" /\ e = ValueError_empty_separator
  end.
Proof.
  destruct sep as [|c sep]; [now split|].
  assert (N : String c sep <> "") by discriminate.
  rewrite (split_nonempty _ _ N). split; [exact N|]. split.
  - destruct (split_scan_first (String c sep) s N) as [fields ->]. discriminate.
  - now apply (split_scan_join _ (String.length s)).
Qed.

Lemma extract_file_name_absent (msg : string) :
  contains "File:" msg = false -> extract_file_name msg = inl IndexError_list.
Proof.
  intros H. apply find_none_contains in H. unfold extract_file_name.
  rewrite split_nonempty by discriminate.
  now rewrite (split_scan_absent _ _ H).
Qed.

(** X2: the expression of line 141 raises exactly when "File:" is not
    in the message, and then it is the IndexError of the missing second
    field; so the test of line 140 lets it run only where it
    succeeds. *)
Theorem file_name_guard_is_exact (msg : string) :
  match extract_file_name msg with
  | inr _ => contains "File:" msg = true
  | inl e => contains "File:" msg = false /\ e = IndexError_list
  end.
Proof.
  destruct (contains "File:" msg) eqn:F.
  - pose proof (extract_file_name_found _ _ (contains_true_find _ _ F)) as E.
    cbv zeta in E. now rewrite E.
  - now rewrite (extract_file_name_absent _ F).
Qed.

(** X3: the expression of line 146 raises exactly when the full marker
    "Download URL (valid for 24 hours):" is not in the message; a
    message in which it succeeds passes the test of line 144. *)
Theorem url_needs_full_marker (msg : string) :
  match extract_url msg with
  | inr _ => contains url_marker msg = true /\ contains "Download URL" msg = true
  | inl e => contains url_marker msg = false /\ e = IndexError_list
  end.
Proof.
  destruct (contains url_marker msg) eqn:U.
  - pose proof (extract_url_found _ _ (contains_true_find _ _ U)) as E.
    cbv zeta in E. rewrite E. split; [reflexivity|]. now apply url_marker_download.
  - now rewrite (extract_url_absent _ U).
Qed.

Lemma not_contains_strip (sub s : string) :
  contains sub s = false -> contains sub (strip s) = false.
Proof.
  intros H. destruct (contains sub (strip s)) eqn:E; [|reflexivity].
  apply contains_strip in E. congruence.
Qed.

(** X4: a file name that line 141 gives never holds "|" or "File:",
    and has no blank at either end. *)
Theorem file_name_is_clean (msg file_name : string) :
  extract_file_name msg = inr file_name ->
  contains "|" file_name = false /\
  contains "File:" file_name = false /\
  lstrip file_name = file_name /\
  rstrip file_name = file_name.
Proof.
  intros H. destruct (contains "File:" msg) eqn:F.
  - pose proof (extract_file_name_found _ _ (contains_true_find _ _ F)) as E.
    cbv zeta in E. rewrite E in H. injection H as <-.
    destruct (strip_fixed
                (take (Nat.min (index_or_end "|"
                                  (drop (index_or_end "File:" msg + 5) msg))
                               (index_or_end "File:"
                                  (drop (index_or_end "File:" msg + 5) msg)))
                      (drop (index_or_end "File:" msg + 5) msg))) as [L R].
    repeat split; try assumption.
    + apply not_contains_strip, contains_take_before; [discriminate | lia].
    + apply not_contains_strip, contains_take_before; [discriminate | lia].
  - rewrite (extract_file_name_absent _ F) in H. discriminate H.
Qed.

Lemma file_name_is_clean_witness :
  extract_file_name "Done successfully. File:  Q3 report.pptx | ready" = inr "Q3 report.pptx" /\
  contains "|" "Q3 report.pptx" = false /\
  contains "File:" "Q3 report.pptx" = false /\
  lstrip "Q3 report.pptx" = "Q3 report.pptx" /\
  rstrip "Q3 report.pptx" = "Q3 report.pptx".
Proof.
  split; [reflexivity|].
  exact (file_name_is_clean "Done successfully. File:  Q3 report.pptx | ready"
           "Q3 report.pptx" eq_refl).
Defined.

(** X5: a URL that line 146 gives never holds the marker, and has no
    blank at either end. *)
Theorem url_is_clean (msg url : string) :
  extract_url msg = inr url ->
  contains url_marker url = false /\
  lstrip url = url /\
  rstrip url = url.
Proof.
  intros H. destruct (contains url_marker msg) eqn:U.
  - pose proof (extract_url_found _ _ (contains_true_find _ _ U)) as E.
    cbv zeta in E. rewrite E in H. injection H as <-.
    destruct (strip_fixed
                (take (index_or_end url_marker
                         (drop (index_or_end url_marker msg
                                + String.length url_marker) msg))
                      (drop (index_or_end url_marker msg
                             + String.length url_marker) msg))) as [L R].
    repeat split; try assumption.
    apply not_contains_strip, contains_take_before; [discriminate | lia].
  - rewrite (extract_url_absent _ U) in H. discriminate H.
Qed.

Lemma url_is_clean_witness :
  extract_url "Done successfully. Download URL (valid for 24 hours):  https://x/y " = inr "https://x/y" /\
  contains url_marker "https://x/y" = false /\
  lstrip "https://x/y" = "https://x/y" /\
  rstrip "https://x/y" = "https://x/y".
Proof.
  split; [reflexivity|].
  exact (url_is_clean
           "Done successfully. Download URL (valid for 24 hours):  https://x/y "
           "https://x/y" eq_refl).
Defined.

(** * Further properties of the rendering *)

(** X6: how the rendering of a message ends.  It raises only for a
    success message that holds "Download URL": IndexError when the full
    marker is missing, NameError when the marker is there and "File:"
    is not.  In every other case it ends normally. *)
Theorem rendering_outcome (msg : string) (p : Page) :
  snd (render_result msg p)
  = if is_success msg && contains "Download URL" msg then
      if contains url_marker msg then
        if contains "File:" msg then inr tt else inl (NameError "file_name")
      else inl IndexError_list
    else inr tt.
Proof.
  destruct (is_success msg) eqn:S; cbn [andb].
  - rewrite (render_result_success _ _ S).
    destruct (show_file_name_cases msg (emit [Success success_banner] p))
      as (info & name & -> & Hinfo).
    destruct (contains "Download URL" msg) eqn:D; [|reflexivity].
    rewrite show_download_run.
    destruct (contains url_marker msg) eqn:U.
    + pose proof (extract_url_found _ _ (contains_true_find _ _ U)) as E.
      cbv zeta in E. rewrite E.
      destruct Hinfo as [(-> & _ & ->)|(-> & f & _ & _ & ->)]; reflexivity.
    + now rewrite (extract_url_absent _ U).
  - now rewrite (render_result_failure _ _ S).
Qed.

(** X7: the complete success path.  For a success message with "File:"
    and the full URL marker the rendering ends normally and adds, in
    this order, the banner, the file name, the download heading, the
    link, the URL, the SnowSQL heading, the GET command for that very
    file name, and the tip; the handler adds nothing else and sends the
    call statement only. *)
Theorem complete_success_page (collect : string -> PyExc + list Row)
        (id msg : string) (cells : list Cell) (rows : list Row) (p : Page) :
  collect (call_statement id) = inr ((Some msg :: cells) :: rows) ->
  is_success msg = true ->
  contains "File:" msg = true ->
  contains url_marker msg = true ->
  exists file_name url,
    extract_file_name msg = inr file_name /\
    extract_url msg = inr url /\
    generate collect id p
    = (emit (Success success_banner
               :: Info (file_name_info file_name)
               :: download_head url
               ++ [Code (snowsql_command file_name) (Some "sql"); download_tip])
            (sent [call_statement id] p),
       inr tt).
Proof.
  intros Hcall S F U.
  pose proof (extract_url_found _ _ (contains_true_find _ _ U)) as E.
  cbv zeta in E.
  destruct (show_file_name_present msg
              (emit [Success success_banner] (sent [call_statement id] p)) F)
    as (f & Ef & Hf).
  eexists f, _. split; [exact Ef|]. split; [exact E|].
  rewrite generate_run, (call_and_render_returned _ _ _ _ _ _ Hcall).
  rewrite (render_result_success _ _ S), Hf, (url_marker_download _ U).
  rewrite show_download_run, E, !emit_emit. reflexivity.
Qed.

Lemma complete_success_page_witness :
  let msg := ("PowerPoint generated successfully! " ++ example_result)%string in
  replying msg (call_statement "ACC001") = inr [[Some msg]] /\
  is_success msg = true /\
  contains "File:" msg = true /\
  contains url_marker msg = true /\
  exists file_name url,
    extract_file_name msg = inr file_name /\
    extract_url msg = inr url /\
    generate (replying msg) "ACC001" blank
    = (emit (Success success_banner
               :: Info (file_name_info file_name)
               :: download_head url
               ++ [Code (snowsql_command file_name) (Some "sql"); download_tip])
            (sent [call_statement "ACC001"] blank),
       inr tt).
Proof.
  split; [reflexivity|]. split; [reflexivity|]. split; [reflexivity|].
  split; [reflexivity|].
  exact (complete_success_page
           (replying ("PowerPoint generated successfully! " ++ example_result))
           "ACC001" ("PowerPoint generated successfully! " ++ example_result)
           [] [] blank eq_refl eq_refl eq_refl eq_refl).
Defined.

(** X8: the classification looks at nothing but the occurrence of the
    word: a message that holds a success-classified text anywhere is
    classified as a success, whatever stands around it. *)
Theorem success_survives_context (pre msg post : string) :
  is_success msg = true -> is_success (pre ++ msg ++ post) = true.
Proof.
  unfold is_success. intros H. rewrite !lower_app.
  now apply contains_within.
Qed.

Lemma success_survives_context_witness :
  is_success "successfully" = true /\
  is_success ("Error: procedure did not complete " ++ "successfully" ++ ".") = true.
Proof.
  split; [reflexivity|].
  exact (success_survives_context "Error: procedure did not complete "
           "successfully" "." eq_refl).
Defined.

(** * Further facts about the selector and the script *)

Section ScriptRuns.

Variable to_pandas : string -> PyExc + list Account.
Variable collect : string -> PyExc + list Row.
Variable revenue_text : Account -> PyExc + string.
Variable employees_text : Account -> PyExc + string.

Lemma account_id_of_run (label : string) :
  account_id_of label = inr (take (index_or_end " - " label) label).
Proof.
  unfold account_id_of. assert (N : " - " <> "") by discriminate.
  rewrite (split_nonempty _ _ N).
  now destruct (split_scan_first " - " label N) as [fields ->].
Qed.

Lemma select_account_failed (e : PyExc) (choice : nat) (p : Page) :
  to_pandas accounts_query = inl e -> caught e = true ->
  select_account to_pandas choice p
  = (emit [ Error ("Error loading accounts: " ++ str_exc e);
            Info "Using manual account ID input instead." ]
          (sent [accounts_query] p),
     inr (None, [])).
Proof.
  intros H C.
  cbv [select_account try_except bind sql_to_pandas st_selectbox show lift ret raise].
  rewrite H. destruct e; [|discriminate C]. now rewrite emit_emit.
Qed.

(** What line 82 does not catch leaves the selector, and the script. *)
Lemma select_account_escaped (e : PyExc) (choice : nat) (p : Page) :
  to_pandas accounts_query = inl e -> caught e = false ->
  select_account to_pandas choice p = (sent [accounts_query] p, inl e).
Proof.
  intros H C.
  cbv [select_account try_except bind sql_to_pandas st_selectbox show lift ret raise].
  rewrite H. now destruct e.
Qed.

Lemma select_account_loaded (df : list Account) (choice : nat) (p : Page) :
  to_pandas accounts_query = inr df ->
  select_account to_pandas choice p
  = match nth_error (account_options df) choice with
    | Some selected =>
        (emit [ Dataframe df; Selectbox "Choose an account:" (account_options df) ]
              (sent [accounts_query] p),
         inr (Some (take (index_or_end " - " selected) selected), df))
    | None =>
        (emit [ Dataframe df; Selectbox "Choose an account:" (account_options df);
                Error ("Error loading accounts: "
                         ++ str_exc (AttributeError_None "split"));
                Info "Using manual account ID input instead." ]
              (sent [accounts_query] p),
         inr (None, []))
    end.
Proof.
  intros H.
  cbv [select_account try_except bind sql_to_pandas st_selectbox show lift ret raise
       AttributeError_None].
  rewrite H. destruct (nth_error (account_options df) choice) as [selected|].
  - rewrite (account_id_of_run selected). now rewrite !emit_emit.
  - now rewrite !emit_emit.
Qed.

(** What a run does once the selector has returned. *)
Lemma app_after_selection (choice : nat) (typed : option string) (pressed : bool)
      (p p1 : Page) (account_id : option string) (df : list Account) :
  select_account to_pandas choice p = (p1, inr (account_id, df)) ->
  app to_pandas collect revenue_text employees_text choice typed pressed p
  = match details_panel revenue_text employees_text account_id df p1 with
    | (p2, inl e) => (p2, inl e)
    | (p2, inr _) =>
        let manual :=
          match typed with
          | Some s => s
          | None => if truthy account_id then str_cell account_id else ""
          end in
        let final := final_account_id manual account_id in
        on_generate collect (pressed && truthy final) final
          (emit [ TextInput "Or enter Account ID manually:" manual;
                  Button "🎨 Generate PowerPoint" (negb (truthy final)) ]
                p2)
    end.
Proof.
  intros H. unfold app at 1. unfold bind at 1. rewrite H. unfold bind at 1.
  destruct (details_panel revenue_text employees_text account_id df p1)
    as [p2 [e|[]]]; [reflexivity|].
  cbv [st_text_input st_button bind show ret].
  cbv zeta. rewrite !emit_emit, negb_involutive. reflexivity.
Qed.

(** A run in which the selector raises ends there. *)
Lemma app_selection_raised (choice : nat) (typed : option string) (pressed : bool)
      (p p1 : Page) (e : PyExc) :
  select_account to_pandas choice p = (p1, inl e) ->
  app to_pandas collect revenue_text employees_text choice typed pressed p
  = (p1, inl e).
Proof. intros H. unfold app at 1. unfold bind at 1. now rewrite H. Qed.

Lemma endswith_inv (suf s : string) :
  endswith suf s = true -> exists u, s = (u ++ suf)%string.
Proof.
  induction s as [|c s IH]; cbn [endswith]; intros H.
  - rewrite orb_false_r in H. apply String.eqb_eq in H. now exists "".
  - apply orb_true_iff in H as [H|H].
    + apply String.eqb_eq in H. now exists "".
    + destruct (IH H) as [u ->]. now exists (String c u).
Qed.

(** An occurrence at [j] puts the first occurrence at [j] or before. *)
Lemma find_at_most (sep s : string) (j : nat) :
  prefix sep (drop j s) = true -> j <= String.length s ->
  exists i, find sep s = Some i /\ i <= j.
Proof.
  revert j; induction s as [|c s IH]; intros j P L.
  - destruct j; cbn [drop] in P; cbn [find]; rewrite P; exists 0; split;
      [reflexivity | lia | reflexivity | lia].
  - cbn [find]. destruct (prefix sep (String c s)) eqn:E.
    + exists 0. split; [reflexivity | lia].
    + destruct j as [|j]; cbn [drop] in P; [congruence|].
      cbn [String.length] in L.
      destruct (IH j P ltac:(lia)) as (i & -> & Hi).
      exists (S i). split; [reflexivity | lia].
Qed.

Lemma index_before_occurrence (sep a b : string) :
  index_or_end sep (a ++ sep ++ b) <= String.length a.
Proof.
  destruct (find_at_most sep (a ++ sep ++ b) (String.length a)) as (i & F & L).
  - rewrite drop_app_length. apply prefix_app.
  - rewrite length_app. lia.
  - unfold index_or_end. now rewrite F.
Qed.

Lemma length_take (n : nat) (s : string) :
  String.length (take n s) = Nat.min n (String.length s).
Proof.
  revert s; induction n as [|n IH]; intros [|c s]; cbn [take String.length];
    try reflexivity.
  now rewrite IH.
Qed.

End ScriptRuns.

(** * Further properties of the selector *)

(** X9: the expression of line 80 never raises: it gives the part of
    the label before its first " - ", a text that does not hold " - ",
    and the whole label when there is no " - " in it. *)
Theorem selector_identifier_is_label_prefix (label : string) :
  account_id_of label = inr (take (index_or_end " - " label) label) /\
  contains " - " (take (index_or_end " - " label) label) = false /\
  (contains " - " label = false -> account_id_of label = inr label).
Proof.
  split; [apply account_id_of_run|]. split.
  - apply contains_take_before; [discriminate | lia].
  - intros H. rewrite account_id_of_run. apply find_none_contains in H.
    unfold index_or_end. rewrite H. now rewrite take_all.
Qed.

(** X10: the label gives the identifier back exactly for the
    identifiers that neither hold " - " nor end in " -". *)
Theorem account_id_roundtrip_iff (row : Account) :
  account_id_of (account_option row) = inr (ACCOUNT_ID row) <->
  contains " - " (ACCOUNT_ID row) = false /\ endswith " -" (ACCOUNT_ID row) = false.
Proof.
  unfold account_option. set (id := ACCOUNT_ID row). set (name := ACCOUNT_NAME row).
  rewrite account_id_of_run. split.
  - intros L.
    apply (f_equal (fun r : PyExc + string =>
                      match r with inr x => String.length x | inl _ => 0 end)) in L.
    cbv beta iota in L. rewrite length_take in L.
    split.
    + destruct (contains " - " id) eqn:C; [|reflexivity]. exfalso.
      destruct (contains_inv _ _ C) as (a & b & E).
      pose proof (index_before_occurrence " - " a (b ++ " - " ++ name)) as B.
      replace (a ++ " - " ++ b ++ " - " ++ name)%string
        with (id ++ " - " ++ name)%string in B
        by (rewrite E, !app_assoc_str; reflexivity).
      rewrite E, !length_app in L. rewrite E in B. cbn [String.length] in L. lia.
    + destruct (endswith " -" id) eqn:C; [|reflexivity]. exfalso.
      destruct (endswith_inv _ _ C) as (u & E).
      pose proof (index_before_occurrence " - " u ("- " ++ name)) as B.
      replace (u ++ " - " ++ "- " ++ name)%string
        with (id ++ " - " ++ name)%string in B
        by (rewrite E, !app_assoc_str; reflexivity).
      rewrite E, !length_app in L. rewrite E in B. cbn [String.length] in L. lia.
  - intros [C E]. unfold index_or_end.
    rewrite (find_in_label _ _ C E). now rewrite take_app_length.
Qed.

(** X11: with the table loaded and a row chosen whose identifier
    neither holds " - " nor ends in " -", the selector shows the table
    and the dropdown, sends the accounts query only, and returns the
    identifier of the chosen row. *)
Theorem selector_returns_chosen_identifier
        (to_pandas : string -> PyExc + list Account)
        (df : list Account) (row : Account) (choice : nat) (p : Page) :
  to_pandas accounts_query = inr df ->
  nth_error df choice = Some row ->
  contains " - " (ACCOUNT_ID row) = false ->
  endswith " -" (ACCOUNT_ID row) = false ->
  select_account to_pandas choice p
  = (emit [ Dataframe df; Selectbox "Choose an account:" (account_options df) ]
          (sent [accounts_query] p),
     inr (Some (ACCOUNT_ID row), df)).
Proof.
  intros H N C E. rewrite (select_account_loaded _ _ _ _ H).
  unfold account_options. rewrite (map_nth_error _ _ _ N).
  change (account_option row)
    with (ACCOUNT_ID row ++ " - " ++ ACCOUNT_NAME row)%string.
  unfold index_or_end.
  rewrite (find_in_label _ _ C E). now rewrite take_app_length.
Qed.

Lemma selector_returns_chosen_identifier_witness :
  one_account accounts_query = inr [acme] /\
  nth_error [acme] 0 = Some acme /\
  contains " - " (ACCOUNT_ID acme) = false /\
  endswith " -" (ACCOUNT_ID acme) = false /\
  select_account one_account 0 blank
  = (emit [ Dataframe [acme]; Selectbox "Choose an account:" (account_options [acme]) ]
          (sent [accounts_query] blank),
     inr (Some "ACC001", [acme])).
Proof.
  split; [reflexivity|]. split; [reflexivity|]. split; [reflexivity|].
  split; [reflexivity|].
  exact (selector_returns_chosen_identifier one_account [acme] acme 0 blank
           eq_refl eq_refl eq_refl eq_refl).
Defined.

(** X12: an empty table is handled as a loading error.  The dropdown
    has nothing to return, line 80 fails on it, and the [except] branch
    reports "Error loading accounts" and leaves no identifier; the
    selector itself ends normally. *)
Theorem empty_table_is_reported_as_error
        (to_pandas : string -> PyExc + list Account) (choice : nat) (p : Page) :
  to_pandas accounts_query = inr [] ->
  select_account to_pandas choice p
  = (emit [ Dataframe []; Selectbox "Choose an account:" [];
            Error "Error loading accounts: 'NoneType' object has no attribute 'split'";
            Info "Using manual account ID input instead." ]
          (sent [accounts_query] p),
     inr (None, [])).
Proof.
  intros H. rewrite (select_account_loaded _ _ _ _ H).
  now destruct choice.
Qed.

Lemma empty_table_is_reported_as_error_witness :
  empty_table accounts_query = inr [] /\
  snd (select_account empty_table 0 blank) = inr (None, []).
Proof.
  split; [reflexivity|].
  exact (f_equal snd (empty_table_is_reported_as_error empty_table 0 blank eq_refl)).
Defined.

(** * Further properties of the detail lookup *)

(** X13: the lookup of line 92 gives the first row of the table with
    the identifier, and raises IndexError exactly when no row has
    it. *)
Theorem account_row_first_match (accounts_df : list Account) (account_id : string) :
  match account_row accounts_df account_id with
  | inr row =>
      ACCOUNT_ID row = account_id /\
      exists before after,
        accounts_df = before ++ row :: after /\
        forall r, In r before -> ACCOUNT_ID r <> account_id
  | inl e =>
      e = IndexError_iloc /\
      forall r, In r accounts_df -> ACCOUNT_ID r <> account_id
  end.
Proof.
  unfold account_row. induction accounts_df as [|x df IH]; cbn [filter].
  - split; [reflexivity|]. intros r [].
  - destruct (String.eqb_spec (ACCOUNT_ID x) account_id) as [E|NE].
    + split; [exact E|]. exists [], df. split; [reflexivity|]. intros r [].
    + destruct (filter (fun row => String.eqb (ACCOUNT_ID row) account_id) df)
        as [|row rest].
      * destruct IH as [_ IH]. split; [reflexivity|].
        intros r [<-|Hr]; [exact NE | now apply IH].
      * destruct IH as (E & before & after & -> & Hb). split; [exact E|].
        exists (x :: before), after. split; [reflexivity|].
        intros r [<-|Hr]; [exact NE | now apply Hb].
Qed.

(** X14: the lookup never fails for the identifier of a row of the
    table: it finds a row with that identifier, and the chosen row
    itself when no two rows share an identifier. *)
Theorem details_are_of_first_match (df : list Account) (row : Account) (choice : nat) :
  nth_error df choice = Some row ->
  exists found,
    account_row df (ACCOUNT_ID row) = inr found /\
    ACCOUNT_ID found = ACCOUNT_ID row /\
    (NoDup (map ACCOUNT_ID df) -> found = row).
Proof.
  unfold account_row. revert choice; induction df as [|x df IH]; intros choice N.
  - now destruct choice.
  - cbn [filter]. destruct (String.eqb_spec (ACCOUNT_ID x) (ACCOUNT_ID row)) as [E|NE].
    + exists x. split; [reflexivity|]. split; [exact E|].
      intros D. destruct choice as [|c]; [now injection N|].
      cbn [nth_error] in N. apply nth_error_In in N.
      cbn [map] in D. inversion D as [|? ? Hx _]; subst.
      exfalso. apply Hx. rewrite E. now apply in_map.
    + destruct choice as [|c]; [injection N as ->; now elim NE|].
      cbn [nth_error] in N. destruct (IH c N) as (found & F & E & U).
      exists found. split; [exact F|]. split; [exact E|].
      intros D. apply U. cbn [map] in D. now inversion D.
Qed.

Lemma details_are_of_first_match_witness :
  nth_error [acme; acme_twin] 1 = Some acme_twin /\
  exists found,
    account_row [acme; acme_twin] (ACCOUNT_ID acme_twin) = inr found /\
    ACCOUNT_ID found = ACCOUNT_ID acme_twin /\
    (NoDup (map ACCOUNT_ID [acme; acme_twin]) -> found = acme_twin).
Proof.
  split; [reflexivity|].
  exact (details_are_of_first_match [acme; acme_twin] acme_twin 1 eq_refl).
Defined.

(** * Further properties of the whole script *)

Section ScriptOutcomes.

Variable to_pandas : string -> PyExc + list Account.
Variable collect : string -> PyExc + list Row.
Variable revenue_text : Account -> PyExc + string.
Variable employees_text : Account -> PyExc + string.

Lemma generate_returns (id : string) (p : Page) :
  exists p' qs,
    generate collect id p = (p', uncaught (collect (call_statement id))) /\
    queries p' = queries p ++ call_statement id :: qs /\
    incl qs [role_query; warehouse_query].
Proof.
  destruct (generate_queries collect id p) as (qs & Q & I).
  exists (fst (generate collect id p)), qs. split; [|now split].
  rewrite <- (generate_outcome collect id p). now destruct (generate collect id p).
Qed.

Lemma on_generate_called (c : ascii) (id : string) (p : Page) :
  exists p' qs,
    on_generate collect true (Some (String c id)) p
    = (p', uncaught (collect (call_statement (String c id)))) /\
    queries p' = queries p ++ call_statement (String c id) :: qs /\
    incl qs [role_query; warehouse_query].
Proof.
  rewrite on_generate_run. cbn [andb truthy str_cell].
  match goal with |- context [generate collect ?i ?q] =>
    destruct (generate_returns i q) as (p' & qs & -> & Q & I) end.
  now exists p', qs.
Qed.

Lemma render_result_shape (msg : string) (p : Page) :
  exists ws r, render_result msg p = (emit ws p, r).
Proof.
  destruct (is_success msg) eqn:S.
  - rewrite (render_result_success _ _ S).
    destruct (show_file_name_cases msg (emit [Success success_banner] p))
      as (info & name & -> & _).
    rewrite emit_emit.
    destruct (contains "Download URL" msg).
    + rewrite show_download_run. destruct (extract_url msg) as [e|url]; [eauto|].
      destruct name; rewrite emit_emit; eauto.
    + rewrite emit_emit. eauto.
  - rewrite (render_result_failure _ _ S). eauto.
Qed.

(** The handler only adds to the page. *)
Lemma generate_shape (id : string) (p : Page) :
  exists ws qs,
    generate collect id p
    = (emit ws (sent (call_statement id :: qs) p),
       uncaught (collect (call_statement id))) /\
    incl qs [role_query; warehouse_query].
Proof.
  assert (C : exists ws r,
             call_and_render collect id p = (emit ws (sent [call_statement id] p), r)).
  { cbv [call_and_render bind sql_collect lift item].
    destruct (collect (call_statement id)) as [e|[|[|[msg|] cells] rows]];
      cbn [nth_error]; try (exists [], (inl e); now rewrite emit_nil);
      try (eexists [], _; now rewrite emit_nil).
    apply render_result_shape. }
  destruct C as (ws & r & C).
  assert (G : exists ws' qs r',
             generate collect id p
             = (emit ws' (sent (call_statement id :: qs) p), r') /\
             incl qs [role_query; warehouse_query]).
  { rewrite generate_run, C. destruct r as [[cls msg|cls msg]|[]].
    - destruct (on_error_run collect (Exc cls msg)
                  (emit ws (sent [call_statement id] p)))
        as (box & qs & -> & I).
      rewrite emit_sent_emit. eexists _, qs, _. split; [reflexivity | exact I].
    - exists ws, [], (inl (BaseExc cls msg)). split; [reflexivity | apply incl_nil_l].
    - exists ws, [], (inr tt). split; [reflexivity | apply incl_nil_l]. }
  destruct G as (ws' & qs & r' & G & I). exists ws', qs. split; [|exact I].
  rewrite <- (generate_outcome collect id p), G. reflexivity.
Qed.

(** An exception leaves the block under the button only when the call
    raised it outside the [Exception] hierarchy; the page then has the
    spinner and nothing of the handler. *)
Lemma on_generate_escaped (generate_button : bool) (final : option string)
      (p p' : Page) (e : PyExc) :
  on_generate collect generate_button final p = (p', inl e) ->
  caught e = false /\
  str_cell final <> "" /\
  collect (call_statement (str_cell final)) = inl e /\
  p' = emit [Spinner ("Generating PowerPoint for account "
                        ++ str_cell final ++ "...")%string]
            (sent [call_statement (str_cell final)] p).
Proof.
  rewrite on_generate_run.
  destruct generate_button; cbn [andb]; [|discriminate].
  destruct (truthy final) eqn:T; [|discriminate].
  destruct (truthy_some _ T) as [_ N].
  rewrite generate_run.
  match goal with |- context [call_and_render collect ?i ?q] =>
    destruct (call_and_render collect i q) as [q' [[cls msg|cls msg]|[]]] eqn:C
  end.
  - now destruct (on_error_run collect (Exc cls msg) q') as (box & qs & -> & _).
  - intros [= <- <-].
    destruct (call_and_render_caught _ _ _ _ _ C) as [K|[K ->]];
      [discriminate K|].
    repeat split; [exact N | exact K].
  - discriminate.
Qed.

End ScriptOutcomes.

Lemma account_row_absent (df : list Account) (id : string) :
  (forall r, In r df -> ACCOUNT_ID r <> id) -> account_row df id = inl IndexError_iloc.
Proof.
  unfold account_row. induction df as [|x df IH]; intros U; [reflexivity|].
  cbn [filter]. destruct (String.eqb_spec (ACCOUNT_ID x) id) as [E|NE].
  - exfalso. apply (U x); [now left | exact E].
  - apply IH. intros r Hr. apply U. now right.
Qed.

(** X15: when the identifier cut from the chosen label is not the
    identifier of any row, the lookup of line 92 raises outside every
    [try]: the run stops after the table and the dropdown with
    IndexError, whatever was typed or pressed, and the procedure is not
    called. *)
Theorem unmatched_identifier_aborts_script
        (to_pandas : string -> PyExc + list Account)
        (collect : string -> PyExc + list Row)
        (revenue_text employees_text : Account -> PyExc + string)
        (df : list Account) (row : Account) (c : ascii) (id : string)
        (choice : nat) (typed : option string) (pressed : bool) (p : Page) :
  to_pandas accounts_query = inr df ->
  nth_error df choice = Some row ->
  account_id_of (account_option row) = inr (String c id) ->
  (forall r, In r df -> ACCOUNT_ID r <> String c id) ->
  app to_pandas collect revenue_text employees_text choice typed pressed p
  = (emit [ Dataframe df; Selectbox "Choose an account:" (account_options df) ]
          (sent [accounts_query] p),
     inl IndexError_iloc).
Proof.
  intros H N A U.
  pose proof (select_account_loaded to_pandas df choice p H) as S.
  unfold account_options in S. rewrite (map_nth_error _ _ _ N) in S.
  rewrite account_id_of_run in A. injection A as A. rewrite A in S.
  rewrite (app_after_selection _ _ _ _ _ _ _ _ _ _ _ S), details_panel_run.
  cbn [truthy str_cell].
  now rewrite (account_row_absent _ _ U).
Qed.

Lemma unmatched_identifier_aborts_script_witness :
  dashed_table accounts_query = inr [dashed] /\
  nth_error [dashed] 0 = Some dashed /\
  account_id_of (account_option dashed) = inr "A" /\
  (forall r, In r [dashed] -> ACCOUNT_ID r <> "A") /\
  app dashed_table (replying "Done successfully") revenue_ok employees_ok
      0 (Some "ACC001") true blank
  = (emit [ Dataframe [dashed];
            Selectbox "Choose an account:" (account_options [dashed]) ]
          (sent [accounts_query] blank),
     inl IndexError_iloc).
Proof.
  assert (U : forall r, In r [dashed] -> ACCOUNT_ID r <> "A").
  { intros r [<-|[]]. discriminate. }
  split; [reflexivity|]. split; [reflexivity|]. split; [reflexivity|].
  split; [exact U|].
  exact (unmatched_identifier_aborts_script dashed_table
           (replying "Done successfully") revenue_ok employees_ok [dashed] dashed
           "A"%char "" 0 (Some "ACC001") true blank eq_refl eq_refl eq_refl U).
Defined.

(** X16: the path from the dropdown to the call.  With the table
    loaded, a row chosen whose non-empty identifier neither holds " - "
    nor ends in " -", the detail panel rendered (the lookup found a row
    and both formats succeeded on it) and the button pressed, the run
    calls the procedure once, right after the accounts query: with what
    was typed if that is not empty, and otherwise (nothing typed, or
    the field cleared) with the identifier of the chosen row.  The run
    ends normally, unless the call raised outside the [Exception]
    hierarchy: that exception, and no other, ends the run. *)
Theorem script_calls_selected_account
        (to_pandas : string -> PyExc + list Account)
        (collect : string -> PyExc + list Row)
        (revenue_text employees_text : Account -> PyExc + string)
        (df : list Account) (row found : Account) (revenue employees : string)
        (choice : nat) (typed : option string) (p : Page) :
  to_pandas accounts_query = inr df ->
  nth_error df choice = Some row ->
  contains " - " (ACCOUNT_ID row) = false ->
  endswith " -" (ACCOUNT_ID row) = false ->
  ACCOUNT_ID row <> "" ->
  account_row df (ACCOUNT_ID row) = inr found ->
  revenue_text found = inr revenue ->
  employees_text found = inr employees ->
  let id := match typed with
            | Some (String c m) => String c m
            | _ => ACCOUNT_ID row
            end in
  exists p' qs,
    app to_pandas collect revenue_text employees_text choice typed true p
    = (p', match collect (call_statement id) with
           | inl (BaseExc cls msg) => inl (BaseExc cls msg)
           | _ => inr tt
           end) /\
    queries p' = queries p ++ accounts_query :: call_statement id :: qs /\
    incl qs [role_query; warehouse_query].
Proof.
  intros H N C E NE D Rv Em id.
  pose proof (select_account_loaded to_pandas df choice p H) as S.
  unfold account_options in S. rewrite (map_nth_error _ _ _ N) in S.
  change (account_option row)
    with (ACCOUNT_ID row ++ " - " ++ ACCOUNT_NAME row)%string in S.
  unfold index_or_end in S. rewrite (find_in_label _ _ C E), take_app_length in S.
  rewrite (app_after_selection _ _ _ _ _ _ _ _ _ _ _ S), details_panel_run.
  destruct (ACCOUNT_ID row) as [|a rid] eqn:R; [contradiction|].
  cbn [truthy str_cell]. rewrite D. cbv zeta. rewrite Rv, Em.
  assert (F : final_account_id
                match typed with Some s => s | None => String a rid end
                (Some (String a rid)) = Some id).
  { unfold id. now destruct typed as [[|c m]|]. }
  rewrite F.
  assert (T : truthy (Some id) = true) by (unfold id; now destruct typed as [[|c m]|]).
  rewrite T. cbn [andb negb].
  destruct id as [|c m] eqn:I; [discriminate T|].
  match goal with |- context [on_generate collect true _ ?q] =>
    destruct (on_generate_called collect c m q) as (p' & qs & -> & Q & In') end.
  exists p', qs. split; [reflexivity|]. split; [|exact In'].
  rewrite Q. cbn [queries emit sent]. now rewrite <- app_assoc.
Qed.

Lemma script_calls_selected_account_witness :
  one_account accounts_query = inr [acme] /\
  nth_error [acme] 0 = Some acme /\
  contains " - " (ACCOUNT_ID acme) = false /\
  endswith " -" (ACCOUNT_ID acme) = false /\
  ACCOUNT_ID acme <> "" /\
  account_row [acme] (ACCOUNT_ID acme) = inr acme /\
  revenue_ok acme = inr "$1,250,000.00" /\
  employees_ok acme = inr "5,000" /\
  exists p' qs,
    app one_account (replying "Done successfully") revenue_ok employees_ok
        0 (Some "") true blank
    = (p', inr tt) /\
    queries p' = queries blank ++ accounts_query :: call_statement "ACC001" :: qs /\
    incl qs [role_query; warehouse_query].
Proof.
  assert (NE : ACCOUNT_ID acme <> "") by discriminate.
  split; [reflexivity|]. split; [reflexivity|]. split; [reflexivity|].
  split; [reflexivity|]. split; [exact NE|]. split; [reflexivity|].
  split; [reflexivity|]. split; [reflexivity|].
  exact (script_calls_selected_account one_account (replying "Done successfully")
           revenue_ok employees_ok [acme] acme acme "$1,250,000.00" "5,000"
           0 (Some "") blank
           eq_refl eq_refl eq_refl eq_refl NE eq_refl eq_refl eq_refl).
Defined.

(** X17: how a run of lines 46-209 can end with an exception.  Either
    reading the table raised outside the [Exception] hierarchy, and
    nothing is on the page; or the detail panel raised for a non-empty
    identifier of a loaded table: at the lookup of line 92, after the
    table and the dropdown, at the revenue of line 96, when the name
    and the type are shown too, or at the employees of line 97, when
    the revenue is shown as well; or the call raised outside the
    [Exception] hierarchy, for a non-empty identifier, after the
    accounts query.  Everything else is caught. *)
Theorem script_exception_sources
        (to_pandas : string -> PyExc + list Account)
        (collect : string -> PyExc + list Row)
        (revenue_text employees_text : Account -> PyExc + string)
        (choice : nat) (typed : option string) (pressed : bool) (p : Page) :
  match app to_pandas collect revenue_text employees_text choice typed pressed p with
  | (p', inl e) =>
      (caught e = false /\ to_pandas accounts_query = inl e /\
       p' = sent [accounts_query] p)
      \/
      (exists df c id,
         to_pandas accounts_query = inr df /\
         let table :=
           [ Dataframe df; Selectbox "Choose an account:" (account_options df) ] in
         (account_row df (String c id) = inl e /\
          p' = emit table (sent [accounts_query] p))
         \/
         (exists row,
            account_row df (String c id) = inr row /\
            revenue_text row = inl e /\
            p' = emit (table ++ [ Metric "Account Name" (ACCOUNT_NAME row);
                                  Metric "Type" (ACCOUNT_TYPE row) ])
                      (sent [accounts_query] p))
         \/
         (exists row revenue,
            account_row df (String c id) = inr row /\
            revenue_text row = inr revenue /\
            employees_text row = inl e /\
            p' = emit (table ++ [ Metric "Account Name" (ACCOUNT_NAME row);
                                  Metric "Type" (ACCOUNT_TYPE row);
                                  Metric "Revenue" revenue ])
                      (sent [accounts_query] p)))
      \/
      (caught e = false /\
       exists id ws,
         id <> "" /\ collect (call_statement id) = inl e /\
         p' = emit ws (sent [accounts_query; call_statement id] p))
  | (_, inr _) => True
  end.
Proof.
  assert (G : forall b f ws,
             match on_generate collect b f (emit ws (sent [accounts_query] p)) with
             | (p', inl e) =>
                 caught e = false /\
                 exists id ws',
                   id <> "" /\ collect (call_statement id) = inl e /\
                   p' = emit ws' (sent [accounts_query; call_statement id] p)
             | (_, inr _) => True
             end).
  { intros b f ws.
    destruct (on_generate collect b f (emit ws (sent [accounts_query] p)))
      as [p' [e|[]]] eqn:O; [|exact I].
    destruct (on_generate_escaped _ _ _ _ _ _ O) as (C & N & K & ->).
    split; [exact C|]. eexists _, _. split; [exact N|]. split; [exact K|].
    unfold emit, sent; cbn [shown queries]. rewrite <- !app_assoc. reflexivity. }
  destruct (to_pandas accounts_query) as [e0|df] eqn:H.
  - destruct (caught e0) eqn:C.
    + rewrite (app_after_selection _ _ _ _ _ _ _ _ _ _ _
                 (select_account_failed to_pandas e0 choice p H C)).
      rewrite details_panel_run. cbn [truthy]. cbv zeta. rewrite emit_emit.
      match goal with |- match on_generate collect ?b ?f (emit ?ws _) with _ => _ end =>
        pose proof (G b f ws) as G' end.
      destruct (on_generate _ _ _ _) as [p' [e|[]]]; [|exact I].
      right; right. exact G'.
    + rewrite (app_selection_raised _ _ _ _ _ _ _ _ _ _
                 (select_account_escaped to_pandas e0 choice p H C)).
      left. now repeat split.
  - pose proof (select_account_loaded to_pandas df choice p H) as S.
    destruct (nth_error (account_options df) choice) as [selected|];
      rewrite (app_after_selection _ _ _ _ _ _ _ _ _ _ _ S), details_panel_run.
    + destruct (take (index_or_end " - " selected) selected) as [|c id];
        cbn [truthy str_cell].
      * cbv zeta. rewrite emit_emit.
        match goal with |- match on_generate collect ?b ?f (emit ?ws _) with _ => _ end =>
          pose proof (G b f ws) as G' end.
        destruct (on_generate _ _ _ _) as [p' [e|[]]]; [|exact I].
        right; right. exact G'.
      * destruct (account_row df (String c id)) as [e|row] eqn:D.
        { right; left. exists df, c, id. split; [reflexivity|]. left. now split. }
        cbv zeta. destruct (revenue_text row) as [e|revenue] eqn:Rv.
        { right; left. exists df, c, id. split; [reflexivity|]. right; left.
          exists row. rewrite emit_emit. now repeat split. }
        destruct (employees_text row) as [e|employees] eqn:Em.
        { right; left. exists df, c, id. split; [reflexivity|]. right; right.
          exists row, revenue. rewrite emit_emit. now repeat split. }
        rewrite !emit_emit.
        match goal with |- match on_generate collect ?b ?f (emit ?ws _) with _ => _ end =>
          pose proof (G b f ws) as G' end.
        destruct (on_generate _ _ _ _) as [p' [e|[]]]; [|exact I].
        right; right. exact G'.
    + cbn [truthy]. cbv zeta. rewrite emit_emit.
      match goal with |- match on_generate collect ?b ?f (emit ?ws _) with _ => _ end =>
        pose proof (G b f ws) as G' end.
      destruct (on_generate _ _ _ _) as [p' [e|[]]]; [|exact I].
      right; right. exact G'.
Qed.

(** X18: when reading the table raises an exception that line 82
    catches and the text field is left empty, the page holds the
    loading error, the hint, the empty field and the disabled button;
    the run ends normally and no call is made, pressed or not. *)
Theorem load_failure_disables_button
        (to_pandas : string -> PyExc + list Account)
        (collect : string -> PyExc + list Row)
        (revenue_text employees_text : Account -> PyExc + string)
        (cls msg : string) (choice : nat) (typed : option string) (pressed : bool)
        (p : Page) :
  to_pandas accounts_query = inl (Exc cls msg) ->
  typed = None \/ typed = Some "" ->
  app to_pandas collect revenue_text employees_text choice typed pressed p
  = (emit [ Error ("Error loading accounts: " ++ msg);
            Info "Using manual account ID input instead.";
            TextInput "Or enter Account ID manually:" "";
            Button "🎨 Generate PowerPoint" true ]
          (sent [accounts_query] p),
     inr tt).
Proof.
  intros H T.
  rewrite (app_after_selection _ _ _ _ _ _ _ _ _ _ _
             (select_account_failed to_pandas _ choice p H eq_refl)).
  rewrite details_panel_run. cbn [truthy str_exc]. cbv zeta.
  destruct T as [->| ->]; cbn [final_account_id nonempty truthy negb app];
    rewrite on_generate_run, andb_false_r, emit_emit; reflexivity.
Qed.

Lemma load_failure_disables_button_witness :
  no_table accounts_query = inl (Exc "SnowparkSQLException" "Object does not exist") /\
  (@None string = None \/ @None string = Some "") /\
  app no_table (replying "Done successfully") revenue_ok employees_ok 0 None true blank
  = (emit [ Error "Error loading accounts: Object does not exist";
            Info "Using manual account ID input instead.";
            TextInput "Or enter Account ID manually:" "";
            Button "🎨 Generate PowerPoint" true ]
          (sent [accounts_query] blank),
     inr tt).
Proof.
  split; [reflexivity|]. split; [now left|].
  exact (load_failure_disables_button no_table (replying "Done successfully")
           revenue_ok employees_ok "SnowparkSQLException" "Object does not exist"
           0 None true blank eq_refl (or_introl eq_refl)).
Defined.

(** X19: the manual fallback.  When reading the table raises an
    exception that line 82 catches, a non-empty identifier typed in the
    text field enables the button, and pressing it calls the procedure
    with what was typed; the run ends normally, unless the call raised
    outside the [Exception] hierarchy. *)
Theorem manual_entry_after_load_failure
        (to_pandas : string -> PyExc + list Account)
        (collect : string -> PyExc + list Row)
        (revenue_text employees_text : Account -> PyExc + string)
        (cls msg : string) (c : ascii) (m : string) (choice : nat) (p : Page) :
  to_pandas accounts_query = inl (Exc cls msg) ->
  exists p' qs,
    app to_pandas collect revenue_text employees_text choice (Some (String c m)) true p
    = (p', match collect (call_statement (String c m)) with
           | inl (BaseExc cls' msg') => inl (BaseExc cls' msg')
           | _ => inr tt
           end) /\
    In (Button "🎨 Generate PowerPoint" false) (shown p') /\
    queries p' = queries p ++ accounts_query :: call_statement (String c m) :: qs /\
    incl qs [role_query; warehouse_query].
Proof.
  intros H.
  rewrite (app_after_selection _ _ _ _ _ _ _ _ _ _ _
             (select_account_failed to_pandas _ choice p H eq_refl)).
  rewrite details_panel_run.
  cbn [truthy]. cbv zeta. cbn [final_account_id nonempty truthy negb andb app].
  rewrite on_generate_run. cbn [andb truthy str_cell].
  match goal with |- context [generate collect ?i ?q] =>
    destruct (generate_shape collect i q) as (ws & qs & -> & I)
  end.
  eexists _, qs. split; [reflexivity|]. split; [|split; [|exact I]].
  - cbn [shown emit sent]. rewrite !in_app_iff. left. left. right.
    cbn [In]. auto.
  - cbn [queries emit sent]. now rewrite <- !app_assoc.
Qed.

Lemma manual_entry_after_load_failure_witness :
  no_table accounts_query = inl (Exc "SnowparkSQLException" "Object does not exist") /\
  exists p' qs,
    app no_table (replying "Done successfully") revenue_ok employees_ok
        0 (Some "ACC007") true blank
    = (p', inr tt) /\
    In (Button "🎨 Generate PowerPoint" false) (shown p') /\
    queries p' = queries blank ++ accounts_query :: call_statement "ACC007" :: qs /\
    incl qs [role_query; warehouse_query].
Proof.
  split; [reflexivity|].
  exact (manual_entry_after_load_failure no_table (replying "Done successfully")
           revenue_ok employees_ok "SnowparkSQLException" "Object does not exist"
           "A"%char "CC007" 0 blank eq_refl).
Defined.

(** * Further properties of the handler and of the sidebar *)

Lemma session_settings_exact (collect : string -> PyExc + list Row) (p : Page) :
  session_settings collect p
  = match snd (ask collect role_query []) with
    | inl _ =>
        (emit [Warning "Could not retrieve current session information"]
              (sent [role_query] p), inr tt)
    | inr current_role =>
        match snd (ask collect warehouse_query []) with
        | inl _ =>
            (emit [Warning "Could not retrieve current session information"]
                  (sent [role_query; warehouse_query] p), inr tt)
        | inr current_warehouse =>
            (emit [Code (current_settings current_role current_warehouse)
                        (Some "python")]
                  (sent [role_query; warehouse_query] p), inr tt)
        end
    end.
Proof.
  cbv [session_settings try_bare bind first_cell sql_collect lift item ask
       and_then snd show].
  destruct (collect role_query) as [e|[|[|c r] rows]]; cbn [nth_error];
    try reflexivity;
    destruct (collect warehouse_query) as [e'|[|[|c' r'] rows']]; cbn [nth_error];
    unfold emit, sent; cbn [shown queries]; rewrite <- ?app_assoc; reflexivity.
Qed.

(** X20: what the handler sends.  The call statement is sent once;
    when the call and the rendering end normally nothing follows it,
    nor when the call raises outside the [Exception] hierarchy; when
    they raise an exception that line 177 catches, the role query
    follows, and the warehouse query after it only if the role query
    gave a cell. *)
Theorem diagnostics_only_on_failure (collect : string -> PyExc + list Row)
        (id : string) (p : Page) :
  queries (fst (generate collect id p))
  = queries p ++ call_statement id ::
      match snd (call_and_render collect id p) with
      | inr _ => []
      | inl (BaseExc _ _) => []
      | inl (Exc _ _) =>
          role_query ::
            match snd (ask collect role_query []) with
            | inr _ => [warehouse_query]
            | inl _ => []
            end
      end.
Proof.
  rewrite generate_run. pose proof (call_and_render_queries collect id p) as Q.
  destruct (call_and_render collect id p) as [p' [[cls msg|cls msg]|[]]];
    cbn [fst snd] in *; [|exact Q|exact Q].
  unfold on_error, bind, st_expander. rewrite show_emit.
  cbn [shown queries emit]. rewrite show_emit, session_settings_exact.
  destruct (snd (ask collect role_query [])) as [e1|r];
    [|destruct (snd (ask collect warehouse_query [])) as [e2|w]];
    cbn [fst queries emit sent]; rewrite Q, <- app_assoc; reflexivity.
Qed.

(** X21: what the troubleshooting box holds.  After the error message
    comes the box with the list of common issues and then, when both
    diagnostic queries gave a cell, the role and the warehouse (a NULL
    cell printed as None); when one of them failed, the warning takes
    their place and nothing is raised. *)
Theorem troubleshooting_box (collect : string -> PyExc + list Row)
        (e : PyExc) (p : Page) :
  on_error collect e p
  = match snd (ask collect role_query []) with
    | inl _ =>
        (emit [ Error (generation_error e);
                Expander "🔧 Troubleshooting"
                  [ Markdown common_issues;
                    Warning "Could not retrieve current session information" ] ]
              (sent [role_query] p), inr tt)
    | inr current_role =>
        match snd (ask collect warehouse_query []) with
        | inl _ =>
            (emit [ Error (generation_error e);
                    Expander "🔧 Troubleshooting"
                      [ Markdown common_issues;
                        Warning "Could not retrieve current session information" ] ]
                  (sent [role_query; warehouse_query] p), inr tt)
        | inr current_warehouse =>
            (emit [ Error (generation_error e);
                    Expander "🔧 Troubleshooting"
                      [ Markdown common_issues;
                        Code (current_settings current_role current_warehouse)
                             (Some "python") ] ]
                  (sent [role_query; warehouse_query] p), inr tt)
        end
    end.
Proof.
  unfold on_error, bind, st_expander. rewrite show_emit.
  cbn [shown queries emit]. rewrite show_emit, session_settings_exact.
  destruct (snd (ask collect role_query [])) as [e1|r];
    [|destruct (snd (ask collect warehouse_query [])) as [e2|w]];
    unfold emit, sent; cbn [shown queries app]; rewrite <- ?app_assoc; reflexivity.
Qed.

(** X22: the sidebar.  The header, the help text and the heading of
    the session block are always shown and the role query is always
    sent.  The three lines of the session are shown together or not at
    all: they appear exactly when the role, warehouse and database
    queries each gave a cell; a query is only sent when the ones before
    it succeeded, and a failure leaves no trace but the missing
    lines. *)
Theorem sidebar_all_or_nothing (collect : string -> PyExc + list Row)
        (log : list string) :
  exists lines qs,
    sidebar collect log = (sidebar_fixed ++ lines, log ++ role_query :: qs) /\
    ((lines = [] /\
      (qs = [] \/ qs = [warehouse_query] \/ qs = [warehouse_query; database_query]) /\
      exists q e, In q (role_query :: qs) /\ snd (ask collect q []) = inl e)
     \/
     (exists r w d,
        snd (ask collect role_query []) = inr r /\
        snd (ask collect warehouse_query []) = inr w /\
        snd (ask collect database_query []) = inr d /\
        lines = [ SideText ("Role: " ++ str_cell r);
                  SideText ("Warehouse: " ++ str_cell w);
                  SideText ("Database: " ++ str_cell d) ] /\
        qs = [warehouse_query; database_query])).
Proof.
  unfold sidebar.
  assert (A : forall q l, ask collect q l = (l ++ [q], snd (ask collect q [])))
    by reflexivity.
  rewrite (A role_query log).
  destruct (snd (ask collect role_query [])) as [e1|r] eqn:R.
  - exists [], []. rewrite app_nil_r. split; [reflexivity|]. left.
    split; [reflexivity|]. split; [now left|].
    exists role_query, e1. split; [now left | exact R].
  - rewrite (A warehouse_query).
    destruct (snd (ask collect warehouse_query [])) as [e2|w] eqn:W.
    + exists [], [warehouse_query]. rewrite app_nil_r, <- app_assoc.
      split; [reflexivity|]. left. split; [reflexivity|]. split; [auto|].
      exists warehouse_query, e2. split; [right; now left | exact W].
    + rewrite (A database_query).
      destruct (snd (ask collect database_query [])) as [e3|d] eqn:D.
      * exists [], [warehouse_query; database_query].
        rewrite app_nil_r, <- !app_assoc. split; [reflexivity|]. left.
        split; [reflexivity|]. split; [auto|].
        exists database_query, e3. split; [right; right; now left | exact D].
      * eexists _, [warehouse_query; database_query]. rewrite <- !app_assoc.
        split; [reflexivity|]. right. now exists r, w, d.
Qed.
